(** * The JMESPath tree interpreter of [jmespath/visitor.py]

    A shallow embedding of [Visitor] and [TreeInterpreter] as they run under
    CPython 2.7 (the file sits in [venv/lib/python2.7/site-packages]), and
    the properties of the evaluator stated over it.

    Layout:
    - [Py]: the Python values the interpreter manipulates and the host
      operations it relies on ([==], [<], truth value, [is], [dict.get],
      list indexing);
    - [Visitor]: exceptions, the method lookup of [Visitor.visit] and its
      cache;
    - [TreeInterpreter]: the module-level helpers [_equals] and
      [_is_special_integer_case], the comparator table, and one definition
      per [visit_*] method;
    - the properties of the evaluator, then further properties of the
      methods (projections, chaining, comparators, function calls,
      indexing, dict selection, the method cache). *)

From Stdlib Require Import ZArith List String Bool Lia.
From Stdlib Require Import Floats.SpecFloat.
From stdpp Require Import gmap strings.
Import ListNotations.

Local Open Scope string_scope.
Local Open Scope Z_scope.
Local Open Scope list_scope.

(* ===================================================================== *)
(** * Python values *)
(* ===================================================================== *)

Module Py.

(** A node of the expression tree is a Python dict with the keys ['type'],
    ['value'] (missing on the nodes that carry no payload) and ['children'].
    Values are what a decoded JSON document holds, plus the [_Expression]
    objects that [visit_expref] creates; such an object holds a node, and a
    literal node holds a value, so the two types are defined together.

    - [VInt] is Python's [int] ([long] for the large ones): CPython keeps
      one object for each small integer, so [x is 0] holds exactly of
      [VInt 0].
    - [VFloat] is an IEEE 754 binary64 number.
    - [VStr] is a text string (what [json.loads] returns).
    - [VDict] lists the items of a dict in its iteration order; the keys of
      a decoded document are strings. *)
Unset Elimination Schemes.

Inductive value : Type :=
| VNone
| VBool (b : bool)
| VInt (z : Z)
| VFloat (f : spec_float)
| VStr (s : string)
| VList (items : list value)
| VDict (items : list (value * value))
| VExpression (expression : node)
with node : Type :=
| Node (type : string) (payload : option value) (children : list node).

Set Elimination Schemes.

Definition node_type (n : node) : string :=
  match n with Node t _ _ => t end.

Definition node_value (n : node) : option value :=
  match n with Node _ p _ => p end.

Definition node_children (n : node) : list node :=
  match n with Node _ _ c => c end.

(** ** Kinds *)

Definition is_list (v : value) : bool :=
  match v with VList _ => true | _ => false end.

Definition is_dict (v : value) : bool :=
  match v with VDict _ => true | _ => false end.

Definition is_none (v : value) : bool :=
  match v with VNone => true | _ => false end.

(** [list] and [dict] objects cannot be hashed: using one as a dict key
    raises [TypeError]. *)
Definition hashable (v : value) : bool :=
  match v with VList _ | VDict _ => false | _ => true end.

(** [tp_name] of the value's type. *)
Definition tp_name (v : value) : string :=
  match v with
  | VNone => "NoneType"
  | VBool _ => "bool"
  | VInt _ => "int"
  | VFloat _ => "float"
  | VStr _ => "unicode"
  | VList _ => "list"
  | VDict _ => "dict"
  | VExpression _ => "_Expression"
  end.

(** ** Numbers

    [bool] is a subclass of [int]; [int] and [float] compare by their exact
    mathematical value ([float_richcompare] never rounds the integer). *)
Inductive number : Type :=
| NInt (z : Z)
| NFloat (f : spec_float).

Definition as_number (v : value) : option number :=
  match v with
  | VBool b => Some (NInt (if b then 1 else 0))
  | VInt z => Some (NInt z)
  | VFloat f => Some (NFloat f)
  | _ => None
  end.

Definition PyNumber_Check (v : value) : bool :=
  match as_number v with Some _ => true | None => false end.

(** The order of an integer and a float; [None] when the float is a NaN. *)
Definition Z_float_compare (z : Z) (f : spec_float) : option comparison :=
  match f with
  | S754_nan => None
  | S754_zero _ => Some (z ?= 0)
  | S754_infinity s => Some (if s then Gt else Lt)
  | S754_finite s m e =>
      let sm := if s then Z.neg m else Z.pos m in
      Some (match e with
            | Z.neg k => (z * 2 ^ Z.pos k ?= sm)
            | _ => (z ?= sm * 2 ^ e)
            end)
  end.

Definition number_compare (a b : number) : option comparison :=
  match a, b with
  | NInt x, NInt y => Some (x ?= y)
  | NFloat f, NFloat g => SFcompare f g
  | NInt x, NFloat g => Z_float_compare x g
  | NFloat f, NInt y => option_map CompOpp (Z_float_compare y f)
  end.

(** The floats [0.0] and [1.0]. *)
Definition float_zero : spec_float := S754_zero false.
Definition float_one : spec_float := S754_finite false 4503599627370496 (-52).

(** ** Rich comparison *)

Inductive cmpop : Type := Py_LT | Py_LE | Py_EQ | Py_NE | Py_GT | Py_GE.

(** [convert_3way_to_object]: the answer of an operator from the outcome of
    a three-way comparison. *)
Definition convert_3way (op : cmpop) (c : comparison) : bool :=
  match op, c with
  | Py_LT, Lt => true
  | Py_LE, (Lt | Eq) => true
  | Py_EQ, Eq => true
  | Py_NE, (Lt | Gt) => true
  | Py_GT, Gt => true
  | Py_GE, (Gt | Eq) => true
  | _, _ => false
  end.

(** With a NaN every operator answers [False], except [!=]. *)
Definition number_richcompare (op : cmpop) (a b : number) : bool :=
  match number_compare a b with
  | Some c => convert_3way op c
  | None => match op with Py_NE => true | _ => false end
  end.

Section HostOrder.

(** Two comparisons of CPython 2.7 are left to the host and not unfolded
    here: [dict_compare], which orders two dicts, and the order of machine
    addresses, which [default_3way_compare] falls back to for two objects
    of one type that defines no comparison (two [_Expression] objects) or
    for two types of one name.  [host_order] stands for both; no property
    stated below depends on its answers.  The model has no object
    identities either:
    every float is a distinct object, so a NaN differs from every float,
    also inside a list. *)
Variable host_order : value -> value -> comparison.

(** [default_3way_compare] on two values of different types: [None] is
    smaller than anything, then the type names are compared, a number
    counting as the empty name. *)
Definition default_3way_compare (v w : value) : comparison :=
  if is_none v then Lt
  else if is_none w then Gt
  else
    let vname := if PyNumber_Check v then "" else tp_name v in
    let wname := if PyNumber_Check w then "" else tp_name w in
    match String.compare vname wname with
    | Eq => host_order v w
    | c => c
    end.

(** [PyObject_RichCompare] on the values above.
    - two numbers: by value;
    - two strings: by code points;
    - two lists ([list_richcompare]): the first pair of items that are not
      [==] decides, with the operator applied to that pair; without such a
      pair the lengths decide;
    - two dicts: [==] and [!=] by [dict_equal] (same length, and every key
      of the left one is a key of the right one with an [==] value), the
      orderings by [dict_compare];
    - otherwise the default three-way comparison. *)
Fixpoint PyObject_RichCompare (op : cmpop) (v w : value) {struct v} : bool :=
  match v, w with
  | VNone, VNone => convert_3way op Eq
  | VStr s, VStr t => convert_3way op (String.compare s t)
  | VList l1, VList l2 =>
      (fix list_richcompare (l1 l2 : list value) {struct l1} : bool :=
         match l1, l2 with
         | [], [] => convert_3way op Eq
         | [], _ :: _ => convert_3way op Lt
         | _ :: _, [] => convert_3way op Gt
         | x :: l1', y :: l2' =>
             if PyObject_RichCompare Py_EQ x y
             then list_richcompare l1' l2'
             else match op with
                  | Py_EQ => false
                  | Py_NE => true
                  | _ => PyObject_RichCompare op x y
                  end
         end) l1 l2
  | VDict d1, VDict d2 =>
      let dict_equal :=
        (Nat.eqb (List.length d1) (List.length d2) &&
         (fix all_items (d : list (value * value)) {struct d} : bool :=
            match d with
            | [] => true
            | (k, x) :: d' =>
                (fix lookup (e : list (value * value)) {struct e} : bool :=
                   match e with
                   | [] => false
                   | (k', y) :: e' =>
                       if PyObject_RichCompare Py_EQ k k'
                       then PyObject_RichCompare Py_EQ x y
                       else lookup e'
                   end) d2
                && all_items d'
            end) d1)%bool in
      match op with
      | Py_EQ => dict_equal
      | Py_NE => negb dict_equal
      | _ => convert_3way op (host_order v w)
      end
  | VExpression _, VExpression _ => convert_3way op (host_order v w)
  | _, _ =>
      match as_number v, as_number w with
      | Some a, Some b => number_richcompare op a b
      | _, _ => convert_3way op (default_3way_compare v w)
      end
  end.

(** [x == y] *)
Definition py_eq (x y : value) : bool := PyObject_RichCompare Py_EQ x y.

(** The functions of the [operator] module used by the comparator table. *)
Definition operator_lt (x y : value) : bool := PyObject_RichCompare Py_LT x y.
Definition operator_le (x y : value) : bool := PyObject_RichCompare Py_LE x y.
Definition operator_gt (x y : value) : bool := PyObject_RichCompare Py_GT x y.
Definition operator_ge (x y : value) : bool := PyObject_RichCompare Py_GE x y.

(** [d.get(key)] once [key] is known to be hashable: the value of the first
    item whose key is [==] to [key], [None] (the default) without one. *)
Fixpoint dict_get (d : list (value * value)) (key : value) : value :=
  match d with
  | [] => VNone
  | (k, x) :: d' => if py_eq k key then x else dict_get d' key
  end.

(** [d[key] = x]: an existing key keeps its place and gets the new value, a
    new key is added. *)
Fixpoint dict_setitem (d : list (value * value)) (key x : value)
  : list (value * value) :=
  match d with
  | [] => [(key, x)]
  | (k, y) :: d' =>
      if py_eq k key then (k, x) :: d' else (k, y) :: dict_setitem d' key x
  end.

End HostOrder.

(** [d.values()] *)
Definition dict_values (d : list (value * value)) : list value :=
  List.map snd d.

(** ** Truth value, as tested by [if] *)
Definition truth (v : value) : bool :=
  match v with
  | VNone => false
  | VBool b => b
  | VInt z => negb (z =? 0)
  | VFloat (S754_zero _) => false
  | VFloat _ => true
  | VStr s => negb (String.eqb s "")
  | VList l => match l with [] => false | _ => true end
  | VDict d => match d with [] => false | _ => true end
  | VExpression _ => true
  end.

(** ** Identity with the singletons: [x is 0], [x is 1], [x is True],
    [x is False] *)
Definition is_int (x : value) (n : Z) : bool :=
  match x with VInt z => z =? n | _ => false end.

Definition is_bool (x : value) (b : bool) : bool :=
  match x with VBool c => Bool.eqb c b | _ => false end.

(** ** List indexing [l[i]] for an integer [i]: a negative index counts
    from the end; [None] stands for [IndexError]. *)
Definition list_getitem (l : list value) (i : Z) : option value :=
  let n := Z.of_nat (List.length l) in
  let j := if i <? 0 then i + n else i in
  if (j <? 0) || (n <=? j) then None else List.nth_error l (Z.to_nat j).

End Py.

(* ===================================================================== *)
(** * [class Visitor] *)
(* ===================================================================== *)

Module Visitor.

(** ** Exceptions and results

    The exception classes that the interpreter can raise on its own, and
    [LibraryError] for whatever the function library raises (by the name of
    its class). *)
Inductive exn : Type :=
| KeyError
| IndexError
| TypeError
| NotImplementedError (msg : string)
| LibraryError (cls : string).

Definition exn_class (e : exn) : string :=
  match e with
  | KeyError => "KeyError"
  | IndexError => "IndexError"
  | TypeError => "TypeError"
  | NotImplementedError _ => "NotImplementedError"
  | LibraryError cls => cls
  end.

(** A call either returns or raises. *)
Inductive result (A : Type) : Type :=
| Ok (a : A)
| Raise (e : exn).

Arguments Ok {A} a.
Arguments Raise {A} e.

Definition bind {A B : Type} (r : result A) (k : A -> result B) : result B :=
  match r with
  | Ok a => k a
  | Raise e => Raise e
  end.

Definition raises {A : Type} (r : result A) (cls : string) : Prop :=
  exists e, r = Raise e /\ exn_class e = cls.

(** ** Method lookup

    [visit] finds the method to call for a node by its name, ['visit_%s' %
    node['type']], among the attributes of the visitor, with
    [default_visit] when there is no such attribute; the answer is kept in
    [_method_cache]. *)
Section Lookup.

Context {method : Type}.
Variable attributes : list (string * method).
Variable default_visit : method.

Fixpoint getattr (attrs : list (string * method)) (name : string)
    (default : method) : method :=
  match attrs with
  | [] => default
  | (a, m) :: attrs' =>
      if String.eqb a name then m else getattr attrs' name default
  end.

Definition method_name (node_type : string) : string :=
  ("visit_" ++ node_type)%string.

Definition method_of (node_type : string) : method :=
  getattr attributes (method_name node_type) default_visit.

(** The first four statements of [visit]: the method, and the cache
    afterwards. *)
Definition cached_method (_method_cache : gmap string method)
    (node_type : string) : method * gmap string method :=
  match _method_cache !! node_type with
  | Some m => (m, _method_cache)
  | None =>
      let m := method_of node_type in
      (m, <[node_type := m]> _method_cache)
  end.

(** What the cache holds at any time: methods found by [getattr]. *)
Definition cache_ok (_method_cache : gmap string method) : Prop :=
  forall t m, _method_cache !! t = Some m -> m = method_of t.

End Lookup.

End Visitor.

Import Py Visitor.

Declare Scope result_scope.
Delimit Scope result_scope with result.
Notation "x <- e ;; k" := (bind e (fun x => k))
  (at level 100, e at next level, right associativity) : result_scope.
Local Open Scope result_scope.

(* ===================================================================== *)
(** * [class TreeInterpreter(Visitor)] *)
(* ===================================================================== *)

Module TreeInterpreter.

(** The [visit_*] methods of the class, as [getattr] finds them, and
    [default_visit], inherited from [Visitor]. *)
Inductive method : Type :=
| m_sub_expression | m_field | m_comparator | m_current | m_expref
| m_function_expression | m_filter_projection | m_flatten | m_identity
| m_index | m_index_expression | m_key_val_pair | m_literal
| m_multi_select_dict | m_multi_select_list | m_or_expression | m_pipe
| m_projection | m_value_projection
| m_default_visit.

Definition attributes : list (string * method) :=
  [ ("visit_sub_expression", m_sub_expression);
    ("visit_field", m_field);
    ("visit_comparator", m_comparator);
    ("visit_current", m_current);
    ("visit_expref", m_expref);
    ("visit_function_expression", m_function_expression);
    ("visit_filter_projection", m_filter_projection);
    ("visit_flatten", m_flatten);
    ("visit_identity", m_identity);
    ("visit_index", m_index);
    ("visit_index_expression", m_index_expression);
    ("visit_key_val_pair", m_key_val_pair);
    ("visit_literal", m_literal);
    ("visit_multi_select_dict", m_multi_select_dict);
    ("visit_multi_select_list", m_multi_select_list);
    ("visit_or_expression", m_or_expression);
    ("visit_pipe", m_pipe);
    ("visit_projection", m_projection);
    ("visit_value_projection", m_value_projection) ].

(** The node types that have a method. *)
Definition node_types : list string :=
  [ "sub_expression"; "field"; "comparator"; "current"; "expref";
    "function_expression"; "filter_projection"; "flatten"; "identity";
    "index"; "index_expression"; "key_val_pair"; "literal";
    "multi_select_dict"; "multi_select_list"; "or_expression"; "pipe";
    "projection"; "value_projection" ].

Section Interpreter.

(** [host_order]: see [Py.HostOrder].  [call_function] is
    [RuntimeFunctions.call_function] of [jmespath/functions.py], the
    function library, which is not part of this file. *)
Variable host_order : value -> value -> comparison.
Variable call_function : value -> list value -> result value.

(** ** Module-level helpers *)

Definition _is_special_integer_case (x y : value) : value :=
  if is_int x 0 || is_int x 1 then
    VBool (is_bool y true || is_bool y false)
  else if is_int y 0 || is_int y 1 then
    VBool (is_bool x true || is_bool x false)
  else VNone.

Definition _equals (x y : value) : bool :=
  if truth (_is_special_integer_case x y) then false
  else py_eq host_order x y.

(** ** [COMPARATOR_FUNC] *)
Definition COMPARATOR_FUNC : list (string * (value -> value -> bool)) :=
  [ ("le", operator_le host_order);
    ("ne", fun x y => negb (_equals x y));
    ("lt", operator_lt host_order);
    ("lte", operator_le host_order);
    ("eq", _equals);
    ("gt", operator_gt host_order);
    ("gte", operator_ge host_order) ].

(** [COMPARATOR_FUNC[key]] *)
Definition COMPARATOR_FUNC_getitem (key : value)
  : result (value -> value -> bool) :=
  match key with
  | VStr name =>
      match List.find (fun p => String.eqb (fst p) name) COMPARATOR_FUNC with
      | Some (_, f) => Ok f
      | None => Raise KeyError
      end
  | _ => if hashable key then Raise KeyError else Raise TypeError
  end.

(** [node['value']] *)
Definition node_getvalue (n : node) : result value :=
  match node_value n with
  | Some x => Ok x
  | None => Raise KeyError
  end.

Definition _is_false (v : value) : bool :=
  py_eq host_order v (VStr "") || py_eq host_order v (VList [])
  || py_eq host_order v (VDict []) || is_none v || is_bool v false.


(** ** The [visit_*] methods

    [visit] below stands for [self.visit]; a [for] loop is a local [fix]
    over the list it walks, carrying the variables the loop assigns. *)
Section Methods.

Variable visit : node -> value -> result value.

Definition visit_sub_expression (n : node) (v : value) : result value :=
  (fix loop (children : list node) (res : value) : result value :=
     match children with
     | [] => Ok res
     | child :: children' => res' <- visit child res ;; loop children' res'
     end) (node_children n) v.

Definition visit_field (n : node) (v : value) : result value :=
  match v with
  | VDict d =>
      key <- node_getvalue n ;;
      if hashable key then Ok (dict_get host_order d key) else Raise TypeError
  | _ => Ok VNone
  end.

Definition visit_comparator (n : node) (v : value) : result value :=
  key <- node_getvalue n ;;
  comparator_func <- COMPARATOR_FUNC_getitem key ;;
  match node_children n with
  | [] => Raise IndexError
  | c0 :: rest =>
      x <- visit c0 v ;;
      match rest with
      | [] => Raise IndexError
      | c1 :: _ => y <- visit c1 v ;; Ok (VBool (comparator_func x y))
      end
  end.

Definition visit_current (n : node) (v : value) : result value := Ok v.

Definition visit_expref (n : node) (v : value) : result value :=
  match node_children n with
  | [] => Raise IndexError
  | c0 :: _ => Ok (VExpression c0)
  end.

Definition visit_function_expression (n : node) (v : value) : result value :=
  resolved_args <-
    (fix loop (children : list node) (resolved_args : list value)
       : result (list value) :=
       match children with
       | [] => Ok resolved_args
       | child :: children' =>
           current <- visit child v ;;
           loop children' (resolved_args ++ [current])
       end) (node_children n) [] ;;
  name <- node_getvalue n ;;
  call_function name resolved_args.

(** The [for element in base] loop of [visit_filter_projection]. *)
Definition filter_projection_for (c1 comparator_node : node)
  : list value -> list value -> result (list value) :=
  fix loop (elements collected : list value) : result (list value) :=
    match elements with
    | [] => Ok collected
    | element :: elements' =>
        p <- visit comparator_node element ;;
        if truth p then
          current <- visit c1 element ;;
          if is_none current then loop elements' collected
          else loop elements' (collected ++ [current])
        else loop elements' collected
    end.

Definition visit_filter_projection (n : node) (v : value) : result value :=
  match node_children n with
  | [] => Raise IndexError
  | c0 :: rest =>
      base <- visit c0 v ;;
      match base with
      | VList elements =>
          match rest with
          | c1 :: comparator_node :: _ =>
              collected <-
                filter_projection_for c1 comparator_node elements [] ;;
              Ok (VList collected)
          | _ => Raise IndexError
          end
      | _ => Ok VNone
      end
  end.

Definition visit_flatten (n : node) (v : value) : result value :=
  match node_children n with
  | [] => Raise IndexError
  | c0 :: _ =>
      base <- visit c0 v ;;
      match base with
      | VList elements =>
          Ok (VList
                ((fix loop (elements merged_list : list value) : list value :=
                    match elements with
                    | [] => merged_list
                    | element :: elements' =>
                        match element with
                        | VList l => loop elements' (merged_list ++ l)
                        | _ => loop elements' (merged_list ++ [element])
                        end
                    end) elements []))
      | _ => Ok VNone
      end
  end.

Definition visit_identity (n : node) (v : value) : result value := Ok v.

Definition visit_index (n : node) (v : value) : result value :=
  match v with
  | VList l =>
      key <- node_getvalue n ;;
      match as_number key with
      | Some (NInt i) =>
          match list_getitem l i with
          | Some x => Ok x
          | None => Ok VNone
          end
      | _ => Raise TypeError
      end
  | _ => Ok VNone
  end.

Definition visit_index_expression (n : node) (v : value) : result value :=
  (fix loop (children : list node) (res : value) : result value :=
     match children with
     | [] => Ok res
     | child :: children' => res' <- visit child res ;; loop children' res'
     end) (node_children n) v.

Definition visit_key_val_pair (n : node) (v : value) : result value :=
  match node_children n with
  | [] => Raise IndexError
  | c0 :: _ => visit c0 v
  end.

Definition visit_literal (n : node) (v : value) : result value :=
  node_getvalue n.

Definition visit_multi_select_dict (n : node) (v : value) : result value :=
  if is_none v then Ok VNone
  else
    collected <-
      (fix loop (children : list node) (collected : list (value * value))
         : result (list (value * value)) :=
         match children with
         | [] => Ok collected
         | child :: children' =>
             x <- visit child v ;;
             key <- node_getvalue child ;;
             if hashable key
             then loop children' (dict_setitem host_order collected key x)
             else Raise TypeError
         end) (node_children n) [] ;;
    Ok (VDict collected).

(** The [for child in node['children']] loop of
    [visit_multi_select_list]. *)
Definition multi_select_list_for (v : value)
  : list node -> list value -> result (list value) :=
  fix loop (children : list node) (collected : list value)
    : result (list value) :=
    match children with
    | [] => Ok collected
    | child :: children' =>
        x <- visit child v ;;
        loop children' (collected ++ [x])
    end.

Definition visit_multi_select_list (n : node) (v : value) : result value :=
  if is_none v then Ok VNone
  else
    collected <- multi_select_list_for v (node_children n) [] ;;
    Ok (VList collected).

Definition visit_or_expression (n : node) (v : value) : result value :=
  match node_children n with
  | [] => Raise IndexError
  | c0 :: rest =>
      matched <- visit c0 v ;;
      if _is_false matched then
        match rest with
        | [] => Raise IndexError
        | c1 :: _ => visit c1 v
        end
      else Ok matched
  end.

Definition visit_pipe (n : node) (v : value) : result value :=
  (fix loop (children : list node) (res : value) : result value :=
     match children with
     | [] => Ok res
     | child :: children' => res' <- visit child res ;; loop children' res'
     end) (node_children n) v.

Definition visit_projection (n : node) (v : value) : result value :=
  match node_children n with
  | [] => Raise IndexError
  | c0 :: rest =>
      base <- visit c0 v ;;
      match base with
      | VList elements =>
          collected <-
            (fix loop (elements collected : list value)
               : result (list value) :=
               match elements with
               | [] => Ok collected
               | element :: elements' =>
                   match rest with
                   | [] => Raise IndexError
                   | c1 :: _ =>
                       current <- visit c1 element ;;
                       if is_none current then loop elements' collected
                       else loop elements' (collected ++ [current])
                   end
               end) elements [] ;;
          Ok (VList collected)
      | _ => Ok VNone
      end
  end.

Definition visit_value_projection (n : node) (v : value) : result value :=
  match node_children n with
  | [] => Raise IndexError
  | c0 :: rest =>
      base <- visit c0 v ;;
      match base with
      | VDict d =>
          collected <-
            (fix loop (elements collected : list value)
               : result (list value) :=
               match elements with
               | [] => Ok collected
               | element :: elements' =>
                   match rest with
                   | [] => Raise IndexError
                   | c1 :: _ =>
                       current <- visit c1 element ;;
                       if is_none current then loop elements' collected
                       else loop elements' (collected ++ [current])
                   end
               end) (dict_values d) [] ;;
          Ok (VList collected)
      | _ => Ok VNone
      end
  end.

Definition default_visit (n : node) (v : value) : result value :=
  Raise (NotImplementedError "default_visit").

End Methods.

(** ** [Visitor.visit]

    The method is the one [getattr] finds for the node's type (the cache
    of [Visitor.cached_method] holds nothing else), called on the node and
    the value. *)
Fixpoint visit (n : node) (v : value) {struct n} : result value :=
  match method_of attributes m_default_visit (node_type n) with
  | m_sub_expression => visit_sub_expression visit n v
  | m_field => visit_field n v
  | m_comparator => visit_comparator visit n v
  | m_current => visit_current n v
  | m_expref => visit_expref n v
  | m_function_expression => visit_function_expression visit n v
  | m_filter_projection => visit_filter_projection visit n v
  | m_flatten => visit_flatten visit n v
  | m_identity => visit_identity n v
  | m_index => visit_index n v
  | m_index_expression => visit_index_expression visit n v
  | m_key_val_pair => visit_key_val_pair visit n v
  | m_literal => visit_literal n v
  | m_multi_select_dict => visit_multi_select_dict visit n v
  | m_multi_select_list => visit_multi_select_list visit n v
  | m_or_expression => visit_or_expression visit n v
  | m_pipe => visit_pipe visit n v
  | m_projection => visit_projection visit n v
  | m_value_projection => visit_value_projection visit n v
  | m_default_visit => default_visit n v
  end.

End Interpreter.

End TreeInterpreter.

Import TreeInterpreter.

(* ===================================================================== *)
(** * What the properties are stated with *)
(* ===================================================================== *)

(** ** A host for the closed examples

    An order of addresses that is never consulted by the examples, and a
    function library with no function registered. *)
Definition example_order : value -> value -> comparison := fun _ _ => Lt.

Definition no_functions : value -> list value -> result value :=
  fun _ _ => Raise (LibraryError "UnknownFunctionError").

(** ** Trees and documents of the examples *)
Definition field (name : string) : node := Node "field" (Some (VStr name)) [].
Definition literal (x : value) : node := Node "literal" (Some x) [].
Definition identity : node := Node "identity" None [].
Definition unknown_node : node := Node "bogus" None [].

(** [a > 1] *)
Definition a_gt_1 : node :=
  Node "comparator" (Some (VStr "gt")) [field "a"; literal (VInt 1)].

(** [[{"a":1},{"a":2},{"a":3}]] *)
Definition base_a123 : value :=
  VList [ VDict [(VStr "a", VInt 1)]; VDict [(VStr "a", VInt 2)];
          VDict [(VStr "a", VInt 3)] ].

(** [{"a":1,"b":2}] *)
Definition doc_ab : value := VDict [(VStr "a", VInt 1); (VStr "b", VInt 2)].

(** ** Navigational mismatches

    The four shapes of the first error class: a field node on a value that
    is not a dict, an index node on a value that is not a list, a flatten
    node whose child gives something else than a list, a value_projection
    node whose child gives something else than a dict. *)
Definition navigational_mismatch (eval : node -> value -> result value)
    (n : node) (v : value) : Prop :=
  (node_type n = "field" /\ is_dict v = false)
  \/ (node_type n = "index" /\ is_list v = false)
  \/ (node_type n = "flatten" /\
      exists c cs b, node_children n = c :: cs /\ eval c v = Ok b /\
                     is_list b = false)
  \/ (node_type n = "value_projection" /\
      exists c cs b, node_children n = c :: cs /\ eval c v = Ok b /\
                     is_dict b = false).

(** ** Chaining, in the words of the specification: the children are
    folded left to right, the output of each being the input of the next,
    starting from the input value. *)
Definition spec_chain (eval : node -> value -> result value)
    (children : list node) (v : value) : result value :=
  fold_left (fun acc child => x <- acc ;; eval child x) children (Ok v).

(** ** The falsy set of the specification *)
Definition falsy (x : value) : Prop :=
  x = VStr "" \/ x = VList [] \/ x = VDict [] \/ x = VNone \/ x = VBool false.

(** ** The order of the types in CPython 2.7: [None], then the numbers,
    then the other types by name. *)
Definition kind_rank (x : value) : Z :=
  match x with
  | VNone => 0
  | VBool _ | VInt _ | VFloat _ => 1
  | VExpression _ => 2
  | VDict _ => 3
  | VList _ => 4
  | VStr _ => 5
  end.

(** [COMPARATOR_FUNC[name](x, y)] *)
Definition apply_comparator (host_order : value -> value -> comparison)
    (name : string) (x y : value) : result bool :=
  f <- COMPARATOR_FUNC_getitem host_order (VStr name) ;; Ok (f x y).

(** ** The loops of the other methods, by name

    The [for] loops of [visit_projection] (the one of
    [visit_value_projection] is the same), [visit_flatten],
    [visit_function_expression] and [visit_multi_select_dict], taken out
    of the methods so that the variables they carry can be generalised;
    [visit_projection_loop] and its siblings below show that they are the
    loops of the methods. *)
Section Loops.

Variable host_order : value -> value -> comparison.
Variable visit : node -> value -> result value.

Definition projection_for (rest : list node)
  : list value -> list value -> result (list value) :=
  fix loop (elements collected : list value) : result (list value) :=
    match elements with
    | [] => Ok collected
    | element :: elements' =>
        match rest with
        | [] => Raise IndexError
        | c1 :: _ =>
            current <- visit c1 element ;;
            if is_none current then loop elements' collected
            else loop elements' (collected ++ [current])
        end
    end.

Definition flatten_for : list value -> list value -> list value :=
  fix loop (elements merged_list : list value) : list value :=
    match elements with
    | [] => merged_list
    | element :: elements' =>
        match element with
        | VList l => loop elements' (merged_list ++ l)
        | _ => loop elements' (merged_list ++ [element])
        end
    end.

Definition function_expression_for (v : value)
  : list node -> list value -> result (list value) :=
  fix loop (children : list node) (resolved_args : list value)
    : result (list value) :=
    match children with
    | [] => Ok resolved_args
    | child :: children' =>
        current <- visit child v ;;
        loop children' (resolved_args ++ [current])
    end.

Definition multi_select_dict_for (v : value)
  : list node -> list (value * value) -> result (list (value * value)) :=
  fix loop (children : list node) (collected : list (value * value))
    : result (list (value * value)) :=
    match children with
    | [] => Ok collected
    | child :: children' =>
        x <- visit child v ;;
        key <- node_getvalue child ;;
        if hashable key
        then loop children' (dict_setitem host_order collected key x)
        else Raise TypeError
    end.

End Loops.

(** ** What the further properties are stated with *)

(** What [visit_flatten] puts in the merged list for one element. *)
Definition flatten_element (element : value) : list value :=
  match element with
  | VList l => l
  | _ => [element]
  end.

Definition not_None (x : value) : bool := negb (is_none x).

(** A key_val_pair node, as the parser builds it for [key: child]. *)
Definition key_val_pair (kc : string * node) : node :=
  Node "key_val_pair" (Some (VStr (fst kc))) [snd kc].

(** The child of the last pair with the given key. *)
Fixpoint last_with_key (key : string) (pairs : list (string * node))
  : option node :=
  match pairs with
  | [] => None
  | kc :: pairs' =>
      match last_with_key key pairs' with
      | Some c => Some c
      | None => if String.eqb (fst kc) key then Some (snd kc) else None
      end
  end.

(** The node types of the three chaining methods. *)
Definition chaining_types : list string :=
  ["sub_expression"; "index_expression"; "pipe"].

(** The names of [COMPARATOR_FUNC]. *)
Definition comparator_names : list string :=
  ["le"; "ne"; "lt"; "lte"; "eq"; "gt"; "gte"].

(** The methods that a sequence of calls of [Visitor.visit] finds for the
    given node types, from a given cache, and the cache at the end. *)
Fixpoint cached_methods {method : Type} (attrs : list (string * method))
    (default : method) (cache : gmap string method) (types : list string)
  : list method * gmap string method :=
  match types with
  | [] => ([], cache)
  | t :: types' =>
      let (m, cache') := cached_method attrs default cache t in
      let (ms, cache'') := cached_methods attrs default cache' types' in
      (m :: ms, cache'')
  end.

(* ===================================================================== *)
(** * Properties *)
(* ===================================================================== *)

(** ** The method cache is transparent *)
Section Cache.

Context {method : Type}.
Variable attrs : list (string * method).
Variable default : method.

Lemma cache_ok_empty : cache_ok attrs default (∅ : gmap string method).
Proof. intros t m H. rewrite lookup_empty in H. discriminate. Qed.

Lemma cached_method_found (cache : gmap string method) (t : string) :
  cache_ok attrs default cache ->
  fst (cached_method attrs default cache t) = method_of attrs default t.
Proof.
  intros Hok. unfold cached_method.
  destruct (cache !! t) as [m|] eqn:E; simpl; [|reflexivity].
  apply (Hok _ _ E).
Qed.

Lemma cached_method_ok (cache : gmap string method) (t : string) :
  cache_ok attrs default cache ->
  cache_ok attrs default (snd (cached_method attrs default cache t)).
Proof.
  intros Hok. unfold cached_method.
  destruct (cache !! t) as [m|] eqn:E; simpl; [exact Hok|].
  intros t' m' H. destruct (decide (t = t')) as [->|Hne].
  - rewrite lookup_insert_eq in H. congruence.
  - rewrite lookup_insert_ne in H by exact Hne. apply (Hok _ _ H).
Qed.

End Cache.

Section Properties.

Variable host_order : value -> value -> comparison.
Variable call_function : value -> list value -> result value.

Local Abbreviation visit := (TreeInterpreter.visit host_order call_function).
Local Abbreviation py_eq := (Py.py_eq host_order).
Local Abbreviation _equals := (TreeInterpreter._equals host_order).
Local Abbreviation _is_false := (TreeInterpreter._is_false host_order).

(** ** Dispatch *)

Lemma visit_unfold (n : node) (v : value) :
  visit n v =
  match method_of attributes m_default_visit (node_type n) with
  | m_sub_expression => visit_sub_expression visit n v
  | m_field => visit_field host_order n v
  | m_comparator => visit_comparator host_order visit n v
  | m_current => visit_current n v
  | m_expref => visit_expref n v
  | m_function_expression =>
      visit_function_expression call_function visit n v
  | m_filter_projection => visit_filter_projection visit n v
  | m_flatten => visit_flatten visit n v
  | m_identity => visit_identity n v
  | m_index => visit_index n v
  | m_index_expression => visit_index_expression visit n v
  | m_key_val_pair => visit_key_val_pair visit n v
  | m_literal => visit_literal n v
  | m_multi_select_dict => visit_multi_select_dict host_order visit n v
  | m_multi_select_list => visit_multi_select_list visit n v
  | m_or_expression => visit_or_expression host_order visit n v
  | m_pipe => visit_pipe visit n v
  | m_projection => visit_projection visit n v
  | m_value_projection => visit_value_projection visit n v
  | m_default_visit => default_visit n v
  end.
Proof. destruct n; reflexivity. Qed.

Lemma method_of_unknown (t : string) :
  ~ In t node_types ->
  method_of attributes m_default_visit t = m_default_visit.
Proof.
  intros H. unfold method_of, attributes, getattr.
  repeat match goal with
  | |- context [String.eqb ?s (method_name t)] =>
      let a := eval cbv in
        (String.substring 6%nat (Nat.sub (String.length s) 6%nat) s) in
      replace (String.eqb s (method_name t)) with (String.eqb a t)
        by reflexivity;
      destruct (String.eqb_spec a t) as [E|_];
      [exfalso; apply H; rewrite <- E; simpl; tauto|]
  end.
  reflexivity.
Qed.

(** C1: a field node on a value that is not a dict, an index node on a
    value that is not a list, a flatten node whose child result is not a
    list and a value_projection node whose child result is not a dict all
    return [None]; none of them raises. *)
Theorem navigational_mismatch_returns_None (n : node) (v : value) :
  navigational_mismatch visit n v -> visit n v = Ok VNone.
Proof.
  intros H. rewrite visit_unfold.
  destruct n as [t p cs]; simpl in H.
  destruct H as [[-> Hv] | [[-> Hv] | [[-> H] | [-> H]]]]; cbn.
  - unfold visit_field. destruct v; try reflexivity. discriminate.
  - unfold visit_index. destruct v; try reflexivity. discriminate.
  - destruct H as (c & cs' & b & Hcs & Hc & Hb). simpl in Hcs; subst cs.
    unfold visit_flatten; cbn. rewrite Hc; cbn.
    destruct b; try reflexivity. discriminate.
  - destruct H as (c & cs' & b & Hcs & Hc & Hb). simpl in Hcs; subst cs.
    unfold visit_value_projection; cbn. rewrite Hc; cbn.
    destruct b; try reflexivity. discriminate.
Qed.

(** ** Comparators *)

(** C2: [eq] tells the booleans from the integers 0 and 1: it answers
    false on (true, 1) and on (false, 0) and true on (1, 1); [ne] is the
    negation of [eq] on every pair, so it answers true on (true, 1).  The
    same holds of the comparator nodes over these literals. *)
Theorem eq_tells_booleans_from_integers :
  apply_comparator host_order "eq" (VBool true) (VInt 1) = Ok false
  /\ apply_comparator host_order "eq" (VBool false) (VInt 0) = Ok false
  /\ apply_comparator host_order "eq" (VInt 1) (VInt 1) = Ok true
  /\ apply_comparator host_order "ne" (VBool true) (VInt 1) = Ok true
  /\ (forall x y,
        apply_comparator host_order "ne" x y =
        (b <- apply_comparator host_order "eq" x y ;; Ok (negb b)))
  /\ (forall v,
        visit (Node "comparator" (Some (VStr "eq"))
                 [literal (VBool true); literal (VInt 1)]) v
        = Ok (VBool false)
        /\ visit (Node "comparator" (Some (VStr "eq"))
                    [literal (VBool false); literal (VInt 0)]) v
           = Ok (VBool false)
        /\ visit (Node "comparator" (Some (VStr "eq"))
                    [literal (VInt 1); literal (VInt 1)]) v
           = Ok (VBool true)
        /\ visit (Node "comparator" (Some (VStr "ne"))
                    [literal (VBool true); literal (VInt 1)]) v
           = Ok (VBool true)).
Proof. repeat split. Qed.

(** C9: the special case of [eq] is an identity test with the integers 0
    and 1, which a float never passes: it is not triggered by (true, 1.0)
    nor by (false, 0.0), and [eq] answers true on both, as [==] does. *)
Theorem eq_conflates_booleans_with_floats :
  _is_special_integer_case (VBool true) (VFloat float_one) = VNone
  /\ _is_special_integer_case (VBool false) (VFloat float_zero) = VNone
  /\ apply_comparator host_order "eq" (VBool true) (VFloat float_one)
     = Ok true
  /\ apply_comparator host_order "eq" (VBool false) (VFloat float_zero)
     = Ok true.
Proof. repeat split. Qed.

Lemma richcompare_across_types (op : cmpop) (x y : value) :
  kind_rank x <> kind_rank y ->
  PyObject_RichCompare host_order op x y =
  convert_3way op (kind_rank x ?= kind_rank y).
Proof.
  intros H.
  destruct x, y; try (exfalso; apply H; reflexivity); reflexivity.
Qed.

(** C3, as the code has it: on two operands of different kinds no ordering
    comparator raises, and the answer is the one of CPython 2's order of
    the types ([None], numbers, [_Expression] objects, dicts, lists,
    strings): [lt] and [lte] answer true exactly when the left operand is
    of the smaller kind, [gt] and [gte] exactly when it is of the larger
    one.  So a number is less than a string. *)
Theorem ordering_across_types (l r : node) (cs : list node) (v x y : value) :
  visit l v = Ok x ->
  visit r v = Ok y ->
  kind_rank x <> kind_rank y ->
  visit (Node "comparator" (Some (VStr "lt")) (l :: r :: cs)) v
  = Ok (VBool (kind_rank x <? kind_rank y))
  /\ visit (Node "comparator" (Some (VStr "lte")) (l :: r :: cs)) v
     = Ok (VBool (kind_rank x <? kind_rank y))
  /\ visit (Node "comparator" (Some (VStr "gt")) (l :: r :: cs)) v
     = Ok (VBool (kind_rank y <? kind_rank x))
  /\ visit (Node "comparator" (Some (VStr "gte")) (l :: r :: cs)) v
     = Ok (VBool (kind_rank y <? kind_rank x)).
Proof.
  intros Hl Hr H.
  repeat split; rewrite visit_unfold; cbn; unfold visit_comparator; cbn;
    rewrite Hl; cbn; rewrite Hr; cbn;
    unfold operator_lt, operator_le, operator_gt, operator_ge;
    rewrite (richcompare_across_types _ x y H);
    do 2 f_equal; rewrite ?(Z.ltb_compare (kind_rank x)),
                    ?(Z.ltb_compare (kind_rank y)), ?(Z.compare_antisym (kind_rank x));
    destruct (kind_rank x ?= kind_rank y) eqn:E; try reflexivity;
    apply Z.compare_eq in E; contradiction.
Qed.

(** ** Unknown node types *)

(** C7, as the code has it: a node whose type is not one of the node types
    with a method makes [visit] raise [NotImplementedError], with the
    message of [default_visit]; no value is returned. *)
Theorem unknown_type_raises_NotImplementedError (n : node) (v : value) :
  ~ In (node_type n) node_types ->
  visit n v = Raise (NotImplementedError "default_visit").
Proof.
  intros H. rewrite visit_unfold, (method_of_unknown _ H). reflexivity.
Qed.

(** ** Chaining *)

Lemma spec_chain_Raise (eval : node -> value -> result value)
    (children : list node) (e : exn) :
  fold_left (fun acc child => x <- acc ;; eval child x) children (Raise e)
  = Raise e.
Proof. induction children as [|c cs IH]; [reflexivity | exact IH]. Qed.

Lemma visit_sub_expression_chain (t : string) (p : option value)
    (cs : list node) (v : value) :
  visit_sub_expression visit (Node t p cs) v = spec_chain visit cs v.
Proof.
  revert v. induction cs as [|c cs IH]; intros v; [reflexivity|].
  change (visit_sub_expression visit (Node t p (c :: cs)) v)
    with (x <- visit c v ;; visit_sub_expression visit (Node t p cs) x).
  unfold spec_chain. cbn [fold_left bind].
  destruct (visit c v) as [x|e]; cbn [bind].
  - apply IH.
  - symmetry. apply spec_chain_Raise.
Qed.

(** C8: a sub_expression node, a pipe node and an index_expression node
    over the same children give the same result on every value, the one of
    folding the children left to right from the input value; with no child
    it is the input value. *)
Theorem chaining_nodes_agree (p1 p2 p3 : option value) (cs : list node)
    (v : value) :
  visit (Node "sub_expression" p1 cs) v = spec_chain visit cs v
  /\ visit (Node "pipe" p2 cs) v = spec_chain visit cs v
  /\ visit (Node "index_expression" p3 cs) v = spec_chain visit cs v
  /\ spec_chain visit [] v = Ok v.
Proof.
  split; [|split; [|split]].
  - rewrite visit_unfold.
    exact (visit_sub_expression_chain "sub_expression" p1 cs v).
  - rewrite visit_unfold.
    exact (visit_sub_expression_chain "pipe" p2 cs v).
  - rewrite visit_unfold.
    exact (visit_sub_expression_chain "index_expression" p3 cs v).
  - reflexivity.
Qed.

(** ** or_expression *)

Lemma _is_false_falsy (x : value) : _is_false x = true <-> falsy x.
Proof.
  unfold falsy.
  destruct x as [|b|z|f|s|l|d|e];
    [ | destruct b | | | destruct s | destruct l | destruct d as [|[k y] d] | ];
    (split;
     [ intros H; try discriminate H; auto 6
     | intros [H|[H|[H|[H|H]]]]; try discriminate H; reflexivity ]).
Qed.

Lemma _is_false_not_falsy (x : value) : ~ falsy x -> _is_false x = false.
Proof.
  intros H. destruct (_is_false x) eqn:E; [|reflexivity].
  exfalso. apply H, _is_false_falsy, E.
Qed.

(** C4: with [x] the result of the left child of an or_expression node,
    the node returns [x] when [x] is not one of the empty string, the
    empty list, the empty dict, [None] and [False], whatever follows the
    left child (the right child is not evaluated, and need not even be
    there); it returns what the right child returns when [x] is one of
    them.  The number 0 is not one of them. *)
Theorem or_expression_short_circuit (p : option value) (l : node)
    (v x : value) :
  visit l v = Ok x ->
  (~ falsy x ->
   forall rest, visit (Node "or_expression" p (l :: rest)) v = Ok x)
  /\ (falsy x ->
      forall r cs,
        visit (Node "or_expression" p (l :: r :: cs)) v = visit r v)
  /\ ~ falsy (VInt 0).
Proof.
  intros Hl. split; [|split].
  - intros Hx rest. rewrite visit_unfold. cbn.
    unfold visit_or_expression. cbn. rewrite Hl. cbn.
    rewrite (_is_false_not_falsy _ Hx). reflexivity.
  - intros Hx r cs. rewrite visit_unfold. cbn.
    unfold visit_or_expression. cbn. rewrite Hl. cbn.
    apply _is_false_falsy in Hx. rewrite Hx. reflexivity.
  - intros [H|[H|[H|[H|H]]]]; discriminate H.
Qed.

(** ** filter_projection *)

Lemma filter_projection_for_spec (c1 c2 : node) (P Q : value -> value)
    (elements collected : list value) :
  (forall e, In e elements -> visit c2 e = Ok (P e)) ->
  (forall e, In e elements -> truth (P e) = true -> visit c1 e = Ok (Q e)) ->
  filter_projection_for visit c1 c2 elements collected =
  Ok (collected ++
      List.filter (fun y => negb (is_none y))
        (List.map Q (List.filter (fun e => truth (P e)) elements))).
Proof.
  revert collected.
  induction elements as [|e elements IH]; intros collected HP HQ.
  - cbn. rewrite app_nil_r. reflexivity.
  - assert (HP' : forall e', In e' elements -> visit c2 e' = Ok (P e'))
      by (intros e' He'; apply HP; right; exact He').
    assert (HQ' : forall e', In e' elements -> truth (P e') = true ->
                             visit c1 e' = Ok (Q e'))
      by (intros e' He'; apply HQ; right; exact He').
    cbn [filter_projection_for List.filter].
    rewrite (HP e (or_introl eq_refl)). cbn [bind].
    destruct (truth (P e)) eqn:Ht.
    + rewrite (HQ e (or_introl eq_refl) Ht). cbn [bind List.map List.filter].
      destruct (is_none (Q e)); cbn [negb].
      * apply IH; assumption.
      * rewrite (IH _ HP' HQ'), <- app_assoc. reflexivity.
    + apply IH; assumption.
Qed.

Lemma filter_projection_for_skip (c1 c2 : node) (l1 l2 collected : list value)
    (e p : value) :
  visit c2 e = Ok p -> truth p = false ->
  filter_projection_for visit c1 c2 (l1 ++ e :: l2) collected =
  filter_projection_for visit c1 c2 (l1 ++ l2) collected.
Proof.
  intros He Hp. revert collected.
  induction l1 as [|a l1 IH]; intros collected.
  - cbn. rewrite He. cbn. rewrite Hp. reflexivity.
  - cbn. destruct (visit c2 a) as [pa|]; cbn; [|reflexivity].
    destruct (truth pa); [|apply IH].
    destruct (visit c1 a) as [ca|]; cbn; [|reflexivity].
    destruct (is_none ca); apply IH.
Qed.

(** C5: a filter_projection node returns [None] when its child 0 does not
    give a list.  On [[{"a":1},{"a":2},{"a":3}]], with the predicate
    [a > 1] as child 2 and the field [a] as child 1, it returns [[2, 3]].
    In general, when child 0 gives a list, the elements whose predicate
    result has a false truth value are dropped, child 1 is evaluated on
    the others in their order, and its [None] results are left out. *)
Theorem filter_projection_spec :
  (forall p c0 cs v b,
      visit c0 v = Ok b -> is_list b = false ->
      visit (Node "filter_projection" p (c0 :: cs)) v = Ok VNone)
  /\ visit (Node "filter_projection" None [identity; field "a"; a_gt_1])
       base_a123
     = Ok (VList [VInt 2; VInt 3])
  /\ (forall p c0 c1 c2 cs v elements (P Q : value -> value),
         visit c0 v = Ok (VList elements) ->
         (forall e, In e elements -> visit c2 e = Ok (P e)) ->
         (forall e, In e elements -> truth (P e) = true ->
                    visit c1 e = Ok (Q e)) ->
         visit (Node "filter_projection" p (c0 :: c1 :: c2 :: cs)) v =
         Ok (VList
               (List.filter (fun y => negb (is_none y))
                  (List.map Q
                     (List.filter (fun e => truth (P e)) elements))))).
Proof.
  split; [|split].
  - intros p c0 cs v b Hc Hb. rewrite visit_unfold. cbn.
    unfold visit_filter_projection. cbn. rewrite Hc. cbn.
    destruct b; try reflexivity. discriminate Hb.
  - reflexivity.
  - intros p c0 c1 c2 cs v elements P Q Hc HP HQ.
    rewrite visit_unfold. cbn.
    unfold visit_filter_projection. cbn. rewrite Hc. cbn.
    rewrite (filter_projection_for_spec c1 c2 P Q elements [] HP HQ).
    reflexivity.
Qed.

(** C10: the predicate of a filter_projection node is tested by its
    Python truth value: an element on which child 2 gives the number 0 is
    left out, the result being the one for the list without that element;
    yet an or_expression node with the same left child returns that 0. *)
Theorem filter_projection_drops_zero (p : option value)
    (c0 c0' c1 c2 : node) (cs : list node) (v v' e : value)
    (l1 l2 : list value) :
  visit c0 v = Ok (VList (l1 ++ e :: l2)) ->
  visit c0' v' = Ok (VList (l1 ++ l2)) ->
  visit c2 e = Ok (VInt 0) ->
  visit (Node "filter_projection" p (c0 :: c1 :: c2 :: cs)) v =
  visit (Node "filter_projection" p (c0' :: c1 :: c2 :: cs)) v'
  /\ (forall q rest,
         visit (Node "or_expression" q (c2 :: rest)) e = Ok (VInt 0)).
Proof.
  intros Hc Hc' He. split.
  - rewrite !visit_unfold. cbn.
    unfold visit_filter_projection. cbn. rewrite Hc, Hc'. cbn.
    rewrite (filter_projection_for_skip c1 c2 l1 l2 [] e (VInt 0) He eq_refl).
    reflexivity.
  - intros q rest. rewrite visit_unfold. cbn.
    unfold visit_or_expression. cbn. rewrite He. reflexivity.
Qed.

(** ** multi_select_list *)

Lemma multi_select_list_for_map (v : value) (R : node -> value)
    (children : list node) (collected : list value) :
  (forall c, In c children -> visit c v = Ok (R c)) ->
  multi_select_list_for visit v children collected =
  Ok (collected ++ List.map R children).
Proof.
  revert collected.
  induction children as [|c children IH]; intros collected H.
  - cbn. rewrite app_nil_r. reflexivity.
  - cbn. rewrite (H c (or_introl eq_refl)). cbn.
    rewrite IH by (intros c' Hc'; apply H; right; exact Hc').
    rewrite <- app_assoc. reflexivity.
Qed.

(** C6: on [None] a multi_select_list node returns [None] whatever its
    children are (none is evaluated); on another value it returns the
    list of the results of its children, in their order.  On
    [{"a":1,"b":2}] with the fields [a] and [b] it returns [[1, 2]]. *)
Theorem multi_select_list_spec :
  (forall p cs, visit (Node "multi_select_list" p cs) VNone = Ok VNone)
  /\ (forall p cs v (R : node -> value),
         is_none v = false ->
         (forall c, In c cs -> visit c v = Ok (R c)) ->
         visit (Node "multi_select_list" p cs) v = Ok (VList (List.map R cs)))
  /\ visit (Node "multi_select_list" None [field "a"; field "b"]) doc_ab
     = Ok (VList [VInt 1; VInt 2]).
Proof.
  split; [|split].
  - intros p cs. rewrite visit_unfold. reflexivity.
  - intros p cs v R Hv H. rewrite visit_unfold. cbn.
    unfold visit_multi_select_list. rewrite Hv. cbn.
    rewrite (multi_select_list_for_map v R cs [] H). reflexivity.
  - reflexivity.
Qed.

End Properties.

(* ===================================================================== *)
(** * The properties at concrete inputs *)
(* ===================================================================== *)

Local Abbreviation visit0 := (TreeInterpreter.visit example_order no_functions).

(** [float_one] and [float_zero] are binary64 numbers. *)
Example float_one_valid :
  valid_binary 53 1024 float_one = true /\
  valid_binary 53 1024 float_zero = true.
Proof. split; reflexivity. Qed.

(** The examples of the specification for field, index and flatten. *)
Example field_index_flatten_examples :
  visit0 (field "a") doc_ab = Ok (VInt 1)
  /\ visit0 (field "a") (VDict [(VStr "b", VInt 2)]) = Ok VNone
  /\ visit0 (Node "index" (Some (VInt 1)) []) (VList [VInt 10; VInt 20; VInt 30])
     = Ok (VInt 20)
  /\ visit0 (Node "index" (Some (VInt 5)) []) (VList [VInt 10; VInt 20; VInt 30])
     = Ok VNone
  /\ visit0 (Node "index" (Some (VInt (-1))) [])
       (VList [VInt 10; VInt 20; VInt 30])
     = Ok (VInt 30)
  /\ visit0 (Node "flatten" None [identity])
       (VList [VList [VInt 1; VInt 2]; VList [VInt 3]; VInt 4])
     = Ok (VList [VInt 1; VInt 2; VInt 3; VInt 4]).
Proof. repeat split. Qed.

Lemma navigational_mismatch_witness :
  (navigational_mismatch visit0 (field "a") (VInt 5)
   /\ visit0 (field "a") (VInt 5) = Ok VNone)
  /\ (navigational_mismatch visit0 (Node "index" (Some (VInt 0)) [])
        (VStr "not-a-list")
      /\ visit0 (Node "index" (Some (VInt 0)) []) (VStr "not-a-list")
         = Ok VNone)
  /\ (navigational_mismatch visit0 (Node "flatten" None [identity]) doc_ab
      /\ visit0 (Node "flatten" None [identity]) doc_ab = Ok VNone)
  /\ (navigational_mismatch visit0
        (Node "value_projection" None [identity; identity])
        (VList [VInt 1])
      /\ visit0 (Node "value_projection" None [identity; identity])
           (VList [VInt 1])
         = Ok VNone).
Proof.
  assert (H1 : navigational_mismatch visit0 (field "a") (VInt 5))
    by (left; split; reflexivity).
  assert (H2 : navigational_mismatch visit0 (Node "index" (Some (VInt 0)) [])
                 (VStr "not-a-list"))
    by (right; left; split; reflexivity).
  assert (H3 : navigational_mismatch visit0 (Node "flatten" None [identity])
                 doc_ab)
    by (right; right; left; split;
        [reflexivity | exists identity, [], doc_ab; repeat split]).
  assert (H4 : navigational_mismatch visit0
                 (Node "value_projection" None [identity; identity])
                 (VList [VInt 1]))
    by (right; right; right; split;
        [reflexivity | exists identity, [identity], (VList [VInt 1]);
                       repeat split]).
  pose proof (navigational_mismatch_returns_None example_order no_functions)
    as Hnull.
  split; [split; [exact H1 | exact (Hnull _ _ H1)]|].
  split; [split; [exact H2 | exact (Hnull _ _ H2)]|].
  split; [split; [exact H3 | exact (Hnull _ _ H3)]|].
  split; [exact H4 | exact (Hnull _ _ H4)].
Defined.

Lemma lt_of_number_and_string_is_true :
  visit0 (Node "comparator" (Some (VStr "lt"))
            [literal (VInt 1); literal (VStr "a")]) VNone
  = Ok (VBool true)
  /\ visit0 (Node "comparator" (Some (VStr "lt"))
               [literal (VInt 1); literal (VStr "a")]) VNone
     <> Ok (VBool false).
Proof. split; [reflexivity | discriminate]. Qed.

Lemma ordering_across_types_witness :
  (visit0 (literal (VInt 1)) VNone = Ok (VInt 1)
   /\ visit0 (literal (VStr "a")) VNone = Ok (VStr "a")
   /\ kind_rank (VInt 1) <> kind_rank (VStr "a"))
  /\ visit0 (Node "comparator" (Some (VStr "lt"))
               [literal (VInt 1); literal (VStr "a")]) VNone
     = Ok (VBool true)
  /\ visit0 (Node "comparator" (Some (VStr "gte"))
               [literal (VInt 1); literal (VStr "a")]) VNone
     = Ok (VBool false).
Proof.
  assert (H : kind_rank (VInt 1) <> kind_rank (VStr "a")) by discriminate.
  split; [repeat split; exact H|].
  destruct (ordering_across_types example_order no_functions
              (literal (VInt 1)) (literal (VStr "a")) [] VNone
              (VInt 1) (VStr "a") eq_refl eq_refl H)
    as (Hlt & _ & _ & Hgte).
  split; [exact Hlt | exact Hgte].
Defined.

Lemma or_expression_witness :
  visit0 (literal (VInt 0)) VNone = Ok (VInt 0)
  /\ visit0 (Node "or_expression" None
               [literal (VInt 0); literal (VStr "fallback")]) VNone
     = Ok (VInt 0)
  /\ visit0 (Node "or_expression" None [literal (VInt 0); unknown_node]) VNone
     = Ok (VInt 0).
Proof.
  destruct (or_expression_short_circuit example_order no_functions None
              (literal (VInt 0)) VNone (VInt 0) eq_refl)
    as (H & _ & H0).
  split; [reflexivity|].
  split; apply (H H0).
Defined.

Lemma filter_projection_witness :
  (visit0 identity (VInt 7) = Ok (VInt 7) /\ is_list (VInt 7) = false)
  /\ visit0 (Node "filter_projection" None [identity; field "a"; a_gt_1])
       (VInt 7)
     = Ok VNone
  /\ visit0 (Node "filter_projection" None
               [identity; field "b"; field "a"])
       (VList [doc_ab; VInt 7; VDict [(VStr "a", VInt 3)]])
     = Ok (VList [VInt 2]).
Proof.
  split; [split; reflexivity|].
  destruct (filter_projection_spec example_order no_functions)
    as (Hnull & _ & Hlist).
  split.
  - apply (Hnull None identity [field "a"; a_gt_1] (VInt 7) (VInt 7));
      reflexivity.
  - set (elements := [doc_ab; VInt 7; VDict [(VStr "a", VInt 3)]]).
    set (P := fun e => match visit0 (field "a") e with
                       | Ok x => x
                       | Raise _ => VNone
                       end).
    set (Q := fun e => match visit0 (field "b") e with
                       | Ok x => x
                       | Raise _ => VNone
                       end).
    assert (HP : forall e, In e elements -> visit0 (field "a") e = Ok (P e))
      by (intros e [<-|[<-|[<-|[]]]]; reflexivity).
    assert (HQ : forall e, In e elements -> truth (P e) = true ->
                           visit0 (field "b") e = Ok (Q e))
      by (intros e [<-|[<-|[<-|[]]]] _; reflexivity).
    exact (Hlist None identity (field "b") (field "a") [] (VList elements)
             elements P Q eq_refl HP HQ).
Defined.

Lemma filter_projection_drops_zero_witness :
  (visit0 (literal (VList [VInt 1; VInt 0; VInt 2])) VNone
   = Ok (VList ([VInt 1] ++ VInt 0 :: [VInt 2]))
   /\ visit0 (literal (VList [VInt 1; VInt 2])) VNone
      = Ok (VList ([VInt 1] ++ [VInt 2]))
   /\ visit0 identity (VInt 0) = Ok (VInt 0))
  /\ visit0 (Node "filter_projection" None
               [literal (VList [VInt 1; VInt 0; VInt 2]); identity; identity])
       VNone
     = visit0 (Node "filter_projection" None
                 [literal (VList [VInt 1; VInt 2]); identity; identity])
         VNone.
Proof.
  split; [repeat split|].
  apply (filter_projection_drops_zero example_order no_functions None
           (literal (VList [VInt 1; VInt 0; VInt 2]))
           (literal (VList [VInt 1; VInt 2]))
           identity identity [] VNone VNone (VInt 0) [VInt 1] [VInt 2]
           eq_refl eq_refl eq_refl).
Defined.

Lemma multi_select_list_witness :
  is_none doc_ab = false
  /\ visit0 (Node "multi_select_list" None [field "b"; field "a"]) doc_ab
     = Ok (VList [VInt 2; VInt 1])
  /\ visit0 (Node "multi_select_list" None [unknown_node]) VNone = Ok VNone.
Proof.
  destruct (multi_select_list_spec example_order no_functions)
    as (Hnone & Hlist & _).
  split; [reflexivity|]. split; [|apply Hnone].
  apply (Hlist None [field "b"; field "a"] doc_ab
           (fun c => match visit0 c doc_ab with
                     | Ok x => x
                     | Raise _ => VNone
                     end)).
  - reflexivity.
  - intros c [<-|[<-|[]]]; reflexivity.
Defined.

Lemma unknown_type_is_not_InvalidNodeError :
  ~ raises (visit0 unknown_node VNone) "InvalidNodeError".
Proof.
  intros (e & He & Hc). vm_compute in He.
  injection He as <-. discriminate Hc.
Qed.

Lemma unknown_type_witness :
  ~ In (node_type unknown_node) node_types
  /\ visit0 unknown_node doc_ab = Raise (NotImplementedError "default_visit").
Proof.
  assert (H : ~ In (node_type unknown_node) node_types).
  { simpl. intros H.
    repeat (destruct H as [H|H]; [discriminate H|]). exact H. }
  split; [exact H|].
  apply (unknown_type_raises_NotImplementedError example_order no_functions
           unknown_node doc_ab H).
Defined.

(* ===================================================================== *)
(** * Further properties of the methods *)
(* ===================================================================== *)

Section Further.

Variable host_order : value -> value -> comparison.
Variable call_function : value -> list value -> result value.

Local Abbreviation visit := (TreeInterpreter.visit host_order call_function).

(** [dispatch t h] replaces the calls of [visit] on the nodes of type [t]
    by calls of the method [h] that [visit] finds for [t]. *)
Ltac dispatch t h :=
  repeat match goal with
  | |- context [TreeInterpreter.visit ?ho ?cf (Node t ?p ?cs) ?v] =>
      change (TreeInterpreter.visit ho cf (Node t p cs) v)
        with (h (Node t p cs) v)
  end.

Ltac dispatch_in H t h :=
  repeat match type of H with
  | context [TreeInterpreter.visit ?ho ?cf (Node t ?p ?cs) ?v] =>
      change (TreeInterpreter.visit ho cf (Node t p cs) v)
        with (h (Node t p cs) v) in H
  end.

(** ** The named loops are the loops of the methods *)

Lemma visit_projection_loop (t : string) (p : option value) (c0 : node)
    (rest : list node) (v : value) :
  visit_projection visit (Node t p (c0 :: rest)) v =
  (base <- visit c0 v ;;
   match base with
   | VList elements =>
       collected <- projection_for visit rest elements [] ;;
       Ok (VList collected)
   | _ => Ok VNone
   end).
Proof. reflexivity. Qed.

Lemma visit_value_projection_loop (t : string) (p : option value) (c0 : node)
    (rest : list node) (v : value) :
  visit_value_projection visit (Node t p (c0 :: rest)) v =
  (base <- visit c0 v ;;
   match base with
   | VDict d =>
       collected <- projection_for visit rest (dict_values d) [] ;;
       Ok (VList collected)
   | _ => Ok VNone
   end).
Proof. reflexivity. Qed.

Lemma visit_flatten_loop (t : string) (p : option value) (c0 : node)
    (rest : list node) (v : value) :
  visit_flatten visit (Node t p (c0 :: rest)) v =
  (base <- visit c0 v ;;
   match base with
   | VList elements => Ok (VList (flatten_for elements []))
   | _ => Ok VNone
   end).
Proof. reflexivity. Qed.

Lemma visit_function_expression_loop (n : node) (v : value) :
  visit_function_expression call_function visit n v =
  (resolved_args <- function_expression_for visit v (node_children n) [] ;;
   name <- node_getvalue n ;;
   call_function name resolved_args).
Proof. reflexivity. Qed.

Lemma visit_multi_select_dict_loop (n : node) (v : value) :
  visit_multi_select_dict host_order visit n v =
  if is_none v then Ok VNone
  else
    (collected <-
       multi_select_dict_for host_order visit v (node_children n) [] ;;
     Ok (VDict collected)).
Proof. reflexivity. Qed.

(** ** flatten *)

Lemma flatten_for_flat_map (elements merged_list : list value) :
  flatten_for elements merged_list =
  merged_list ++ List.flat_map flatten_element elements.
Proof.
  revert merged_list.
  induction elements as [|e elements IH]; intros merged_list.
  - cbn. rewrite app_nil_r. reflexivity.
  - cbn [List.flat_map]. rewrite app_assoc, <- IH.
    destruct e; reflexivity.
Qed.

(** X1: when its child gives a list, a flatten node returns the elements
    of that list in order, each element that is itself a list being
    replaced by its own elements, one level deep. *)
Theorem flatten_one_level (p : option value) (c0 : node) (cs : list node)
    (v : value) (elements : list value) :
  visit c0 v = Ok (VList elements) ->
  visit (Node "flatten" p (c0 :: cs)) v =
  Ok (VList (List.flat_map flatten_element elements)).
Proof.
  intros Hc. dispatch "flatten" (visit_flatten visit).
  rewrite visit_flatten_loop, Hc. cbn [bind].
  rewrite flatten_for_flat_map. reflexivity.
Qed.

(** ** projection, value_projection, filter_projection *)

Lemma projection_for_spec (c1 : node) (rest : list node)
    (Q : value -> value) (elements collected : list value) :
  (forall e, In e elements -> visit c1 e = Ok (Q e)) ->
  projection_for visit (c1 :: rest) elements collected =
  Ok (collected ++ List.filter not_None (List.map Q elements)).
Proof.
  revert collected.
  induction elements as [|e elements IH]; intros collected HQ.
  - cbn. rewrite app_nil_r. reflexivity.
  - cbn [projection_for List.map List.filter].
    rewrite (HQ e (or_introl eq_refl)). cbn [bind].
    assert (HQ' : forall e', In e' elements -> visit c1 e' = Ok (Q e'))
      by (intros e' He'; apply HQ; right; exact He').
    unfold not_None at 1. destruct (is_none (Q e)); cbn [negb].
    + apply IH, HQ'.
    + rewrite (IH _ HQ'), <- app_assoc. reflexivity.
Qed.

(** X2: when child 0 of a projection node gives a list and child 1
    returns on each of its elements, the node returns the results of
    child 1 in the order of the elements, without those that are
    [None]. *)
Theorem projection_maps_and_omits_None (p : option value) (c0 c1 : node)
    (cs : list node) (v : value) (elements : list value)
    (Q : value -> value) :
  visit c0 v = Ok (VList elements) ->
  (forall e, In e elements -> visit c1 e = Ok (Q e)) ->
  visit (Node "projection" p (c0 :: c1 :: cs)) v =
  Ok (VList (List.filter not_None (List.map Q elements))).
Proof.
  intros Hc HQ. dispatch "projection" (visit_projection visit).
  rewrite visit_projection_loop, Hc. cbn [bind].
  rewrite (projection_for_spec c1 cs Q elements [] HQ). reflexivity.
Qed.

(** X3: a value_projection node whose child 0 gives a dict does what a
    projection node with the same other children does on the list of the
    values of that dict, errors included. *)
Theorem value_projection_is_projection_of_values (p q : option value)
    (c0 : node) (rest : list node) (v w : value)
    (d : list (value * value)) :
  visit c0 v = Ok (VDict d) ->
  visit (Node "value_projection" p (c0 :: rest)) v =
  visit (Node "projection" q (literal (VList (dict_values d)) :: rest)) w.
Proof.
  intros Hc. dispatch "value_projection" (visit_value_projection visit).
  dispatch "projection" (visit_projection visit).
  rewrite visit_value_projection_loop, visit_projection_loop, Hc.
  reflexivity.
Qed.



Lemma projection_for_None_free (rest : list node)
    (elements collected r : list value) :
  projection_for visit rest elements collected = Ok r ->
  Forall (fun x => is_none x = false) collected ->
  Forall (fun x => is_none x = false) r
  /\ (length r <= length collected + length elements)%nat.
Proof.
  revert collected.
  induction elements as [|e elements IH]; intros collected Hr Hc.
  - cbn in Hr. injection Hr as <-. split; [exact Hc | lia].
  - cbn [projection_for] in Hr. destruct rest as [|c1 rest']; [discriminate|].
    destruct (visit c1 e) as [y|err]; cbn [bind] in Hr; [|discriminate].
    destruct (is_none y) eqn:Hy.
    + destruct (IH _ Hr Hc) as [H1 H2]. split; [exact H1 | cbn; lia].
    + assert (Hc' : Forall (fun x => is_none x = false) (collected ++ [y])).
      { apply Forall_app. split; [exact Hc|]. constructor; [exact Hy|].
        constructor. }
      destruct (IH _ Hr Hc') as [H1 H2]. split; [exact H1|].
      rewrite length_app in H2. cbn in H2 |- *. lia.
Qed.

Lemma filter_projection_for_None_free (c1 c2 : node)
    (elements collected r : list value) :
  filter_projection_for visit c1 c2 elements collected = Ok r ->
  Forall (fun x => is_none x = false) collected ->
  Forall (fun x => is_none x = false) r
  /\ (length r <= length collected + length elements)%nat.
Proof.
  revert collected.
  induction elements as [|e elements IH]; intros collected Hr Hc.
  - cbn in Hr. injection Hr as <-. split; [exact Hc | lia].
  - cbn [filter_projection_for] in Hr.
    destruct (visit c2 e) as [x|err]; cbn [bind] in Hr; [|discriminate].
    destruct (truth x).
    + destruct (visit c1 e) as [y|err]; cbn [bind] in Hr; [|discriminate].
      destruct (is_none y) eqn:Hy.
      * destruct (IH _ Hr Hc) as [H1 H2]. split; [exact H1 | cbn; lia].
      * assert (Hc' : Forall (fun x => is_none x = false) (collected ++ [y])).
        { apply Forall_app. split; [exact Hc|]. constructor; [exact Hy|].
          constructor. }
        destruct (IH _ Hr Hc') as [H1 H2]. split; [exact H1|].
        rewrite length_app in H2. cbn in H2 |- *. lia.
    + destruct (IH _ Hr Hc) as [H1 H2]. split; [exact H1 | cbn; lia].
Qed.

(** X5: whatever its children are, when a projection, filter_projection
    or value_projection node returns a list, [None] is not an element of
    that list. *)
Theorem projections_return_no_None (t : string) (p : option value)
    (cs : list node) (v : value) (r : list value) :
  In t ["projection"; "filter_projection"; "value_projection"] ->
  visit (Node t p cs) v = Ok (VList r) ->
  Forall (fun x => is_none x = false) r.
Proof.
  intros Ht Hr.
  destruct cs as [|c0 rest];
    [destruct Ht as [<-|[<-|[<-|[]]]]; discriminate Hr|].
  destruct Ht as [<-|[<-|[<-|[]]]].
  - dispatch_in Hr "projection" (visit_projection visit).
    rewrite visit_projection_loop in Hr.
    destruct (visit c0 v) as [base|]; cbn [bind] in Hr; [|discriminate].
    destruct base; try discriminate.
    destruct (projection_for visit rest items []) as [r'|] eqn:E;
      cbn [bind] in Hr; [|discriminate].
    injection Hr as <-.
    apply (projection_for_None_free _ _ _ _ E). constructor.
  - dispatch_in Hr "filter_projection" (visit_filter_projection visit).
    unfold visit_filter_projection in Hr. cbn in Hr.
    destruct (visit c0 v) as [base|]; cbn [bind] in Hr; [|discriminate].
    destruct base; try discriminate.
    destruct rest as [|c1 [|c2 rest]]; try discriminate.
    destruct (filter_projection_for visit c1 c2 items []) as [r'|] eqn:E;
      cbn [bind] in Hr; [|discriminate].
    injection Hr as <-.
    apply (filter_projection_for_None_free _ _ _ _ _ E). constructor.
  - dispatch_in Hr "value_projection" (visit_value_projection visit).
    rewrite visit_value_projection_loop in Hr.
    destruct (visit c0 v) as [base|]; cbn [bind] in Hr; [|discriminate].
    destruct base; try discriminate.
    destruct (projection_for visit rest (dict_values items) [])
      as [r'|] eqn:E; cbn [bind] in Hr; [|discriminate].
    injection Hr as <-.
    apply (projection_for_None_free _ _ _ _ E). constructor.
Qed.


(** X6: when child 0 of a projection or filter_projection node gives a
    list and the node returns a list, the returned list is not longer
    than the one of child 0. *)
Theorem projections_do_not_grow (t : string) (p : option value)
    (c0 : node) (rest : list node) (v : value) (elements r : list value) :
  In t ["projection"; "filter_projection"] ->
  visit c0 v = Ok (VList elements) ->
  visit (Node t p (c0 :: rest)) v = Ok (VList r) ->
  (length r <= length elements)%nat.
Proof.
  intros Ht Hc Hr.
  destruct Ht as [<-|[<-|[]]].
  - dispatch_in Hr "projection" (visit_projection visit).
    rewrite visit_projection_loop, Hc in Hr. cbn [bind] in Hr.
    destruct (projection_for visit rest elements []) as [r'|] eqn:E;
      cbn [bind] in Hr; [|discriminate].
    injection Hr as <-.
    apply (projection_for_None_free _ _ _ _ E). constructor.
  - dispatch_in Hr "filter_projection" (visit_filter_projection visit).
    unfold visit_filter_projection in Hr. cbn in Hr.
    rewrite Hc in Hr. cbn [bind] in Hr.
    destruct rest as [|c1 [|c2 rest]]; try discriminate.
    destruct (filter_projection_for visit c1 c2 elements []) as [r'|] eqn:E;
      cbn [bind] in Hr; [|discriminate].
    injection Hr as <-.
    apply (filter_projection_for_None_free _ _ _ _ _ E). constructor.
Qed.

(** X7: the children of a projection are read when they are used.  A
    projection node with child 0 alone returns the empty list when child 0
    gives the empty list, and raises [IndexError] when it gives a list
    with an element; a filter_projection node with fewer than three
    children raises [IndexError] on every list that child 0 gives, the
    empty one too. *)
Theorem projection_children_read_on_use (p : option value) (c0 : node)
    (v : value) :
  (visit c0 v = Ok (VList []) ->
   visit (Node "projection" p [c0]) v = Ok (VList []))
  /\ (forall e elements,
         visit c0 v = Ok (VList (e :: elements)) ->
         visit (Node "projection" p [c0]) v = Raise IndexError)
  /\ (forall elements rest,
         visit c0 v = Ok (VList elements) ->
         (length rest < 2)%nat ->
         visit (Node "filter_projection" p (c0 :: rest)) v
         = Raise IndexError).
Proof.
  split; [|split].
  - intros Hc. dispatch "projection" (visit_projection visit).
    rewrite visit_projection_loop, Hc. reflexivity.
  - intros e elements Hc. dispatch "projection" (visit_projection visit).
    rewrite visit_projection_loop, Hc. reflexivity.
  - intros elements rest Hc Hlen.
    dispatch "filter_projection" (visit_filter_projection visit).
    unfold visit_filter_projection. cbn. rewrite Hc. cbn [bind].
    destruct rest as [|c1 [|c2 rest]]; try reflexivity.
    cbn in Hlen. lia.
Qed.

(** ** multi_select_list *)

Lemma multi_select_list_for_length (v : value) (children : list node)
    (collected r : list value) :
  multi_select_list_for visit v children collected = Ok r ->
  length r = (length collected + length children)%nat.
Proof.
  revert collected.
  induction children as [|c children IH]; intros collected Hr.
  - cbn in Hr. injection Hr as <-. cbn. lia.
  - cbn [multi_select_list_for] in Hr.
    destruct (visit c v) as [x|]; cbn [bind] in Hr; [|discriminate].
    rewrite (IH _ Hr), length_app. cbn. lia.
Qed.

(** X8: whatever its children are, when a multi_select_list node returns
    a list, that list has one element for each child: results that are
    [None] are kept. *)
Theorem multi_select_list_length (p : option value) (cs : list node)
    (v : value) (r : list value) :
  visit (Node "multi_select_list" p cs) v = Ok (VList r) ->
  length r = length cs.
Proof.
  intros Hr.
  dispatch_in Hr "multi_select_list" (visit_multi_select_list visit).
  unfold visit_multi_select_list in Hr.
  destruct (is_none v); [discriminate|]. cbn [node_children] in Hr.
  destruct (multi_select_list_for visit v cs []) as [r'|] eqn:E;
    cbn [bind] in Hr; [|discriminate].
  injection Hr as <-.
  apply (multi_select_list_for_length _ _ _ _ E).
Qed.

(** ** Chaining *)

Lemma visit_chaining (t : string) (p : option value) (cs : list node)
    (v : value) :
  In t chaining_types ->
  visit (Node t p cs) v = spec_chain visit cs v.
Proof.
  intros [<-|[<-|[<-|[]]]].
  - exact (visit_sub_expression_chain host_order call_function
             "sub_expression" p cs v).
  - exact (visit_sub_expression_chain host_order call_function
             "index_expression" p cs v).
  - exact (visit_sub_expression_chain host_order call_function
             "pipe" p cs v).
Qed.

Lemma spec_chain_app (cs1 cs2 : list node) (v : value) :
  spec_chain visit (cs1 ++ cs2) v =
  (x <- spec_chain visit cs1 v ;; spec_chain visit cs2 x).
Proof.
  unfold spec_chain. rewrite fold_left_app.
  destruct (fold_left _ cs1 (Ok v)) as [x|e]; cbn [bind]; [reflexivity|].
  apply spec_chain_Raise.
Qed.

(** X9: chaining nodes compose: a sub_expression, index_expression or
    pipe node whose two children are themselves chaining nodes does what
    one chaining node over the children of the first followed by the
    children of the second does. *)
Theorem chaining_of_chainings (t t1 t2 : string) (p p1 p2 : option value)
    (cs1 cs2 : list node) (v : value) :
  In t chaining_types -> In t1 chaining_types -> In t2 chaining_types ->
  visit (Node t p [Node t1 p1 cs1; Node t2 p2 cs2]) v =
  visit (Node t p (cs1 ++ cs2)) v.
Proof.
  intros Ht Ht1 Ht2.
  rewrite !(visit_chaining t) by exact Ht.
  rewrite spec_chain_app.
  unfold spec_chain at 1. cbn [fold_left bind].
  rewrite (visit_chaining t1) by exact Ht1.
  destruct (spec_chain visit cs1 v) as [x|e]; cbn [bind]; [|reflexivity].
  apply (visit_chaining t2), Ht2.
Qed.

(** X10: a chain stops at the first child that raises: when the children
    before it lead from the input to [x] and it raises on [x], the
    chaining node raises the same exception, whatever comes after. *)
Theorem chaining_stops_at_error (t : string) (p : option value)
    (cs1 cs2 : list node) (c : node) (v x : value) (e : exn) :
  In t chaining_types ->
  visit (Node t p cs1) v = Ok x ->
  visit c x = Raise e ->
  visit (Node t p (cs1 ++ c :: cs2)) v = Raise e.
Proof.
  intros Ht H1 Hc.
  rewrite (visit_chaining t) in H1 |- * by exact Ht.
  rewrite spec_chain_app, H1. cbn [bind].
  unfold spec_chain. cbn [fold_left bind]. rewrite Hc.
  apply spec_chain_Raise.
Qed.

(** X11: an identity or current node anywhere in a chain can be left
    out. *)
Theorem chaining_skips_identity (t ti : string) (p q : option value)
    (cs1 cs2 ci : list node) (v : value) :
  In t chaining_types ->
  In ti ["identity"; "current"] ->
  visit (Node t p (cs1 ++ Node ti q ci :: cs2)) v =
  visit (Node t p (cs1 ++ cs2)) v.
Proof.
  intros Ht Hti.
  rewrite !(visit_chaining t) by exact Ht.
  rewrite !spec_chain_app.
  destruct (spec_chain visit cs1 v) as [x|e]; cbn [bind]; [|reflexivity].
  unfold spec_chain. cbn [fold_left bind].
  destruct Hti as [<-|[<-|[]]]; reflexivity.
Qed.

(** ** or_expression *)

(** X12: or_expression nodes associate: nesting on the left or on the
    right gives the same result, errors included. *)
Theorem or_expression_assoc (p1 p2 p3 p4 : option value) (a b c : node)
    (v : value) :
  visit (Node "or_expression" p1 [Node "or_expression" p2 [a; b]; c]) v =
  visit (Node "or_expression" p3 [a; Node "or_expression" p4 [b; c]]) v.
Proof.
  dispatch "or_expression" (visit_or_expression host_order visit).
  unfold visit_or_expression. cbn [node_children].
  dispatch "or_expression" (visit_or_expression host_order visit).
  unfold visit_or_expression. cbn [node_children].
  destruct (visit a v) as [x|e]; cbn [bind]; [|reflexivity].
  destruct (TreeInterpreter._is_false host_order x) eqn:Hx.
  - destruct (visit b v) as [y|e]; cbn [bind]; [|reflexivity].
    destruct (TreeInterpreter._is_false host_order y) eqn:Hy;
      cbn [bind]; rewrite ?Hy; reflexivity.
  - cbn [bind]. rewrite Hx. reflexivity.
Qed.


(** ** Comparators *)

(** X13: a comparator node whose name is not in [COMPARATOR_FUNC], or
    that has no name, raises [KeyError] before any child is evaluated:
    whatever the children are, and with no child at all. *)
Theorem comparator_unknown_name (cs : list node) (v : value) :
  (forall name, ~ In name comparator_names ->
     visit (Node "comparator" (Some (VStr name)) cs) v = Raise KeyError)
  /\ visit (Node "comparator" None cs) v = Raise KeyError.
Proof.
  split; [|reflexivity].
  intros name H.
  dispatch "comparator" (visit_comparator host_order visit).
  unfold visit_comparator, node_getvalue. cbn [node_value bind].
  unfold COMPARATOR_FUNC_getitem, COMPARATOR_FUNC. cbn [List.find fst].
  repeat match goal with
  | |- context [String.eqb ?a name] =>
      destruct (String.eqb_spec a name) as [E|_];
      [exfalso; apply H; rewrite <- E; simpl; tauto|]
  end.
  reflexivity.
Qed.

Lemma py_eq_integers (x y : value) (a b : Z) :
  as_number x = Some (NInt a) -> as_number y = Some (NInt b) ->
  Py.py_eq host_order x y = (a =? b).
Proof.
  intros Hx Hy. unfold Py.py_eq.
  destruct x, y; try discriminate Hx; try discriminate Hy;
    injection Hx as <-; injection Hy as <-;
    cbn [PyObject_RichCompare as_number]; unfold number_richcompare;
    cbn [number_compare]; rewrite Z.eqb_compare;
    destruct (_ ?= _); reflexivity.
Qed.

(** X14: on two integers the comparators are the order and the equality
    of the integers: [lt] is [<], [lte] and [le] are [<=], [gt] is [>],
    [gte] is [>=], [eq] is [=] and [ne] is its negation. *)
Theorem comparators_on_integers (l r : node) (cs : list node)
    (v : value) (a b : Z) :
  visit l v = Ok (VInt a) ->
  visit r v = Ok (VInt b) ->
  visit (Node "comparator" (Some (VStr "lt")) (l :: r :: cs)) v
  = Ok (VBool (a <? b))
  /\ visit (Node "comparator" (Some (VStr "lte")) (l :: r :: cs)) v
     = Ok (VBool (a <=? b))
  /\ visit (Node "comparator" (Some (VStr "le")) (l :: r :: cs)) v
     = Ok (VBool (a <=? b))
  /\ visit (Node "comparator" (Some (VStr "gt")) (l :: r :: cs)) v
     = Ok (VBool (b <? a))
  /\ visit (Node "comparator" (Some (VStr "gte")) (l :: r :: cs)) v
     = Ok (VBool (b <=? a))
  /\ visit (Node "comparator" (Some (VStr "eq")) (l :: r :: cs)) v
     = Ok (VBool (a =? b))
  /\ visit (Node "comparator" (Some (VStr "ne")) (l :: r :: cs)) v
     = Ok (VBool (negb (a =? b))).
Proof.
  intros Hl Hr.
  assert (Heq : TreeInterpreter._equals host_order (VInt a) (VInt b)
                = (a =? b)).
  { unfold TreeInterpreter._equals, _is_special_integer_case.
    cbn [is_int is_bool orb].
    assert (E : Py.py_eq host_order (VInt a) (VInt b) = (a =? b))
      by (apply py_eq_integers; reflexivity).
    destruct ((a =? 0) || (a =? 1))%bool; cbn [truth];
      [exact E|].
    destruct ((b =? 0) || (b =? 1))%bool; cbn [truth]; exact E. }
  dispatch "comparator" (visit_comparator host_order visit).
  unfold visit_comparator. cbn. rewrite Hl. cbn. rewrite Hr. cbn.
  rewrite Heq.
  unfold operator_lt, operator_le, operator_gt, operator_ge. cbn.
  unfold number_richcompare. cbn.
  rewrite (Z.ltb_compare a b), (Z.leb_compare a b), (Z.ltb_compare b a),
    (Z.leb_compare b a), (Z.compare_antisym a b).
  destruct (a ?= b); repeat split.
Qed.

(** X15: [eq] never holds between a boolean and an integer, in either
    order, and [ne] always does: for 0 and 1 by the special case, for the
    other integers because they differ from [True] and [False]. *)
Theorem eq_of_boolean_and_integer (b : bool) (z : Z) :
  apply_comparator host_order "eq" (VBool b) (VInt z) = Ok false
  /\ apply_comparator host_order "eq" (VInt z) (VBool b) = Ok false
  /\ apply_comparator host_order "ne" (VBool b) (VInt z) = Ok true
  /\ apply_comparator host_order "ne" (VInt z) (VBool b) = Ok true.
Proof.
  assert (H1 : TreeInterpreter._equals host_order (VBool b) (VInt z)
               = false).
  { unfold TreeInterpreter._equals, _is_special_integer_case.
    cbn [is_int is_bool orb].
    destruct (Z.eqb_spec z 0) as [->|H0]; [destruct b; reflexivity|].
    destruct (Z.eqb_spec z 1) as [->|H1]; [destruct b; reflexivity|].
    cbn [orb truth].
    rewrite (py_eq_integers (VBool b) (VInt z) _ z eq_refl eq_refl).
    destruct b; apply Z.eqb_neq; congruence. }
  assert (H2 : TreeInterpreter._equals host_order (VInt z) (VBool b)
               = false).
  { unfold TreeInterpreter._equals, _is_special_integer_case.
    cbn [is_int is_bool orb].
    destruct (Z.eqb_spec z 0) as [->|H0]; [destruct b; reflexivity|].
    destruct (Z.eqb_spec z 1) as [->|H1']; [destruct b; reflexivity|].
    cbn [orb truth].
    rewrite (py_eq_integers (VInt z) (VBool b) z _ eq_refl eq_refl).
    destruct b; apply Z.eqb_neq; congruence. }
  unfold apply_comparator. cbn. rewrite H1, H2. repeat split.
Qed.


(** ** function_expression *)

Lemma function_expression_for_map (v : value) (R : node -> value)
    (children : list node) (resolved_args : list value) :
  (forall c, In c children -> visit c v = Ok (R c)) ->
  function_expression_for visit v children resolved_args =
  Ok (resolved_args ++ List.map R children).
Proof.
  revert resolved_args.
  induction children as [|c children IH]; intros resolved_args H.
  - cbn. rewrite app_nil_r. reflexivity.
  - cbn [function_expression_for List.map].
    rewrite (H c (or_introl eq_refl)). cbn [bind].
    rewrite IH by (intros c' Hc'; apply H; right; exact Hc').
    rewrite <- app_assoc. reflexivity.
Qed.

Lemma function_expression_for_Raise (v : value) (R : node -> value)
    (cs1 cs2 : list node) (c : node) (e : exn)
    (resolved_args : list value) :
  (forall c', In c' cs1 -> visit c' v = Ok (R c')) ->
  visit c v = Raise e ->
  function_expression_for visit v (cs1 ++ c :: cs2) resolved_args = Raise e.
Proof.
  revert resolved_args.
  induction cs1 as [|c1 cs1 IH]; intros resolved_args H Hc.
  - cbn. rewrite Hc. reflexivity.
  - cbn [app function_expression_for].
    rewrite (H c1 (or_introl eq_refl)). cbn [bind].
    apply IH; [|exact Hc]. intros c' Hc'. apply H. right. exact Hc'.
Qed.

(** X16: when all its children return, a function_expression node
    returns what the function library returns for the name of the node
    and the list of the results of the children, in their order. *)
Theorem function_expression_calls_library (name : value) (cs : list node)
    (v : value) (R : node -> value) :
  (forall c, In c cs -> visit c v = Ok (R c)) ->
  visit (Node "function_expression" (Some name) cs) v =
  call_function name (List.map R cs).
Proof.
  intros H.
  dispatch "function_expression"
    (visit_function_expression call_function visit).
  rewrite visit_function_expression_loop. cbn [node_children].
  rewrite (function_expression_for_map v R cs [] H). reflexivity.
Qed.

(** X17: when a child of a function_expression node raises and the
    children before it return, the node raises the same exception; the
    later children and the name of the node do not matter. *)
Theorem function_expression_argument_error (p : option value)
    (cs1 cs2 : list node) (c : node) (v : value) (R : node -> value)
    (e : exn) :
  (forall c', In c' cs1 -> visit c' v = Ok (R c')) ->
  visit c v = Raise e ->
  visit (Node "function_expression" p (cs1 ++ c :: cs2)) v = Raise e.
Proof.
  intros H Hc.
  dispatch "function_expression"
    (visit_function_expression call_function visit).
  rewrite visit_function_expression_loop. cbn [node_children].
  rewrite (function_expression_for_Raise v R cs1 cs2 c e [] H Hc).
  reflexivity.
Qed.

(** ** index *)

(** X18: on a list of length [n], an index node with the integer [i]
    returns the element at position [i] when [0 <= i < n], the element at
    position [i + n] when [-n <= i < 0], and [None] for every other
    integer; it does not raise. *)
Theorem index_in_and_out_of_range (cs : list node) (l : list value)
    (i : Z) :
  let n := Z.of_nat (length l) in
  (0 <= i < n ->
   visit (Node "index" (Some (VInt i)) cs) (VList l)
   = Ok (List.nth (Z.to_nat i) l VNone))
  /\ (- n <= i < 0 ->
      visit (Node "index" (Some (VInt i)) cs) (VList l)
      = Ok (List.nth (Z.to_nat (i + n)) l VNone))
  /\ (i < - n \/ n <= i ->
      visit (Node "index" (Some (VInt i)) cs) (VList l) = Ok VNone).
Proof.
  intros n.
  assert (Hnth : forall k, (k < length l)%nat ->
            List.nth_error l k = Some (List.nth k l VNone))
    by (intros k Hk; apply nth_error_nth'; exact Hk).
  dispatch "index" visit_index.
  unfold visit_index, node_getvalue. cbn [node_value bind as_number].
  unfold list_getitem. fold n.
  repeat split; intros H.
  - destruct (Z.ltb_spec i 0); [lia|].
    destruct (Z.ltb_spec i 0); [lia|].
    destruct (Z.leb_spec n i); [lia|]. cbn [orb].
    rewrite Hnth by lia. reflexivity.
  - destruct (Z.ltb_spec i 0); [|lia].
    destruct (Z.ltb_spec (i + n) 0); [lia|].
    destruct (Z.leb_spec n (i + n)); [lia|]. cbn [orb].
    rewrite Hnth by lia. reflexivity.
  - destruct (Z.ltb_spec i 0).
    + destruct (Z.ltb_spec (i + n) 0); [reflexivity|].
      destruct (Z.leb_spec n (i + n)); [reflexivity|]. lia.
    + destruct (Z.ltb_spec i 0); [lia|].
      destruct (Z.leb_spec n i); [reflexivity|]. lia.
Qed.

(** ** multi_select_dict and field *)

Lemma string_compare_refl (s : string) : String.compare s s = Eq.
Proof.
  pose proof (String.compare_antisym s s) as H.
  destruct (String.compare s s); [reflexivity | discriminate H ..].
Qed.

Lemma py_eq_strings (s t : string) :
  Py.py_eq host_order (VStr s) (VStr t) = String.eqb s t.
Proof.
  unfold Py.py_eq. cbn [PyObject_RichCompare].
  destruct (String.eqb_spec s t) as [->|H].
  - rewrite string_compare_refl. reflexivity.
  - destruct (String.compare s t) eqn:E; try reflexivity.
    apply String.compare_eq_iff in E. contradiction.
Qed.

Lemma py_eq_string_r (k : value) (s : string) :
  Py.py_eq host_order k (VStr s) = true -> k = VStr s.
Proof.
  destruct k; try discriminate.
  rewrite py_eq_strings. intros H. apply String.eqb_eq in H.
  congruence.
Qed.

Lemma dict_get_setitem (d : list (value * value)) (k k' : string)
    (x : value) :
  dict_get host_order (dict_setitem host_order d (VStr k) x) (VStr k') =
  if String.eqb k k' then x else dict_get host_order d (VStr k').
Proof.
  induction d as [|[k0 y] d IH].
  - cbn [dict_setitem dict_get]. rewrite py_eq_strings. reflexivity.
  - cbn [dict_setitem].
    destruct (Py.py_eq host_order k0 (VStr k)) eqn:E0.
    + apply py_eq_string_r in E0. subst k0.
      cbn [dict_get]. rewrite py_eq_strings.
      destruct (String.eqb k k'); reflexivity.
    + cbn [dict_get].
      destruct (Py.py_eq host_order k0 (VStr k')) eqn:E1.
      * apply py_eq_string_r in E1. subst k0.
        rewrite py_eq_strings in E0.
        rewrite String.eqb_sym in E0. rewrite E0. reflexivity.
      * exact IH.
Qed.

Lemma multi_select_dict_for_spec (v : value) (R : node -> value)
    (pairs : list (string * node)) (collected : list (value * value)) :
  (forall kc, In kc pairs -> visit (snd kc) v = Ok (R (snd kc))) ->
  exists r,
    multi_select_dict_for host_order visit v (List.map key_val_pair pairs)
      collected = Ok r
    /\ forall key,
         dict_get host_order r (VStr key) =
         match last_with_key key pairs with
         | Some c => R c
         | None => dict_get host_order collected (VStr key)
         end.
Proof.
  revert collected.
  induction pairs as [|kc pairs IH]; intros collected H.
  - exists collected. split; reflexivity.
  - cbn [List.map multi_select_dict_for].
    change (visit (key_val_pair kc) v) with (visit (snd kc) v).
    rewrite (H kc (or_introl eq_refl)). cbn.
    destruct (IH (dict_setitem host_order collected (VStr (fst kc))
                    (R (snd kc))))
      as (r & Hr & Hget);
      [intros kc' Hkc'; apply H; right; exact Hkc'|].
    exists r. split; [exact Hr|].
    intros key. rewrite Hget, dict_get_setitem.
    cbn [last_with_key].
    destruct (last_with_key key pairs); [reflexivity|].
    destruct (String.eqb (fst kc) key); reflexivity.
Qed.

(** X19: selecting into a dict and reading a key back: on a value other
    than [None], a multi_select_dict node over pairs with string keys
    whose children all return, followed in a chain by a field node,
    returns the result of the child of the last pair with the key of the
    field, and [None] when no pair has that key. *)
Theorem field_of_multi_select_dict (p q : option value)
    (pairs : list (string * node)) (key : string) (v : value)
    (R : node -> value) :
  is_none v = false ->
  (forall kc, In kc pairs -> visit (snd kc) v = Ok (R (snd kc))) ->
  visit (Node "sub_expression" p
           [Node "multi_select_dict" q (List.map key_val_pair pairs);
            field key]) v =
  Ok (match last_with_key key pairs with
      | Some c => R c
      | None => VNone
      end).
Proof.
  intros Hv H.
  rewrite (visit_chaining "sub_expression") by (left; reflexivity).
  unfold spec_chain. cbn [fold_left bind].
  dispatch "multi_select_dict" (visit_multi_select_dict host_order visit).
  rewrite visit_multi_select_dict_loop, Hv. cbn [node_children].
  destruct (multi_select_dict_for_spec v R pairs [] H) as (r & Hr & Hget).
  rewrite Hr. cbn [bind].
  change (visit (field key) (VDict r))
    with (Ok (dict_get host_order r (VStr key)) : result value).
  rewrite Hget. destruct (last_with_key key pairs); reflexivity.
Qed.

(** ** The two truth tests *)

(** X22: the test of or_expression and the truth value that
    filter_projection tests disagree exactly on the zero numbers: a value
    is kept by or_expression and yet fails a filter exactly when it is
    the integer 0 or a float zero. *)
Theorem truth_tests_differ_on_zero (x : value) :
  (TreeInterpreter._is_false host_order x = false /\ truth x = false)
  <-> (x = VInt 0 \/ exists s, x = VFloat (S754_zero s)).
Proof.
  split.
  - intros [Hf Ht].
    destruct x as [|b|z|f|s|l|d|e]; cbn in Ht; try discriminate.
    + destruct b; discriminate.
    + left. f_equal. apply Z.eqb_eq. apply negb_false_iff. exact Ht.
    + right. destruct f; try discriminate. eexists; reflexivity.
    + destruct s; discriminate.
    + destruct l; discriminate.
    + destruct d as [|[k y] d]; discriminate.
  - intros [->|[s ->]]; split; reflexivity.
Qed.


End Further.

(** ** The method cache *)

Section CacheTrace.

Context {method : Type}.
Variable attrs : list (string * method).
Variable default : method.

(** X20: from a cache that holds only methods found by [getattr] (the
    empty one, to begin with), any sequence of lookups returns for each
    node type the method that [getattr] finds for it, and leaves such a
    cache. *)
Theorem cached_methods_are_getattr (cache : gmap string method)
    (types : list string) :
  cache_ok attrs default cache ->
  fst (cached_methods attrs default cache types)
  = List.map (method_of attrs default) types
  /\ cache_ok attrs default (snd (cached_methods attrs default cache types)).
Proof.
  revert cache.
  induction types as [|t types IH]; intros cache Hok; [split; [reflexivity|exact Hok]|].
  cbn [cached_methods List.map].
  pose proof (cached_method_found attrs default cache t Hok) as Hm.
  pose proof (cached_method_ok attrs default cache t Hok) as Hc.
  destruct (cached_method attrs default cache t) as [m cache'].
  cbn [fst snd] in Hm, Hc.
  destruct (IH cache' Hc) as [IH1 IH2].
  destruct (cached_methods attrs default cache' types) as [ms cache''].
  cbn [fst snd] in *. split; [congruence | exact IH2].
Qed.

(** X21: a lookup writes the cache at most once for a node type: looking
    the same type up again returns the same method and leaves the cache
    as the first lookup left it. *)
Theorem cached_method_again (cache : gmap string method) (t : string) :
  cached_method attrs default (snd (cached_method attrs default cache t)) t
  = (fst (cached_method attrs default cache t),
     snd (cached_method attrs default cache t)).
Proof.
  unfold cached_method.
  destruct (cache !! t) as [m|] eqn:E; cbn [fst snd].
  - rewrite E. reflexivity.
  - rewrite lookup_insert_eq. reflexivity.
Qed.

End CacheTrace.

(* ===================================================================== *)
(** * The further properties at concrete inputs *)
(* ===================================================================== *)

Lemma flatten_one_level_witness :
  visit0 identity (VList [VList [VInt 1; VList [VInt 2]]; VInt 3])
  = Ok (VList [VList [VInt 1; VList [VInt 2]]; VInt 3])
  /\ visit0 (Node "flatten" None [identity])
       (VList [VList [VInt 1; VList [VInt 2]]; VInt 3])
     = Ok (VList [VInt 1; VList [VInt 2]; VInt 3]).
Proof.
  split; [reflexivity|].
  exact (flatten_one_level example_order no_functions None identity []
           (VList [VList [VInt 1; VList [VInt 2]]; VInt 3])
           [VList [VInt 1; VList [VInt 2]]; VInt 3] eq_refl).
Defined.

Lemma projection_witness :
  visit0 identity (VList [doc_ab; VInt 7; doc_ab])
  = Ok (VList [doc_ab; VInt 7; doc_ab])
  /\ visit0 (Node "projection" None [identity; field "b"])
       (VList [doc_ab; VInt 7; doc_ab])
     = Ok (VList [VInt 2; VInt 2]).
Proof.
  split; [reflexivity|].
  set (elements := [doc_ab; VInt 7; doc_ab]).
  set (Q := fun e => match visit0 (field "b") e with
                     | Ok x => x
                     | Raise _ => VNone
                     end).
  assert (HQ : forall e, In e elements -> visit0 (field "b") e = Ok (Q e))
    by (intros e [<-|[<-|[<-|[]]]]; reflexivity).
  exact (projection_maps_and_omits_None example_order no_functions None
           identity (field "b") [] (VList elements) elements Q eq_refl HQ).
Defined.

Lemma value_projection_witness :
  visit0 identity doc_ab = Ok doc_ab
  /\ visit0 (Node "value_projection" None [identity; identity]) doc_ab
     = Ok (VList [VInt 1; VInt 2]).
Proof.
  split; [reflexivity|].
  exact (value_projection_is_projection_of_values example_order no_functions
           None None identity [identity] doc_ab VNone
           [(VStr "a", VInt 1); (VStr "b", VInt 2)] eq_refl).
Defined.


Lemma projections_return_no_None_witness :
  In "projection" ["projection"; "filter_projection"; "value_projection"]
  /\ visit0 (Node "projection" None [identity; identity])
       (VList [VNone; VInt 1; VNone])
     = Ok (VList [VInt 1])
  /\ Forall (fun x => is_none x = false) [VInt 1].
Proof.
  assert (Ht : In "projection"
                 ["projection"; "filter_projection"; "value_projection"])
    by (left; reflexivity).
  split; [exact Ht|]. split; [reflexivity|].
  exact (projections_return_no_None example_order no_functions "projection"
           None [identity; identity] (VList [VNone; VInt 1; VNone])
           [VInt 1] Ht eq_refl).
Defined.

Lemma projections_do_not_grow_witness :
  In "filter_projection" ["projection"; "filter_projection"]
  /\ visit0 identity base_a123 = Ok base_a123
  /\ visit0 (Node "filter_projection" None [identity; field "a"; a_gt_1])
       base_a123
     = Ok (VList [VInt 2; VInt 3])
  /\ (length [VInt 2; VInt 3] <= 3)%nat.
Proof.
  assert (Ht : In "filter_projection" ["projection"; "filter_projection"])
    by (right; left; reflexivity).
  split; [exact Ht|]. split; [reflexivity|]. split; [reflexivity|].
  exact (projections_do_not_grow example_order no_functions
           "filter_projection" None identity [field "a"; a_gt_1] base_a123
           _ [VInt 2; VInt 3] Ht eq_refl eq_refl).
Defined.

Lemma projection_children_read_on_use_witness :
  visit0 identity (VList []) = Ok (VList [])
  /\ visit0 (Node "projection" None [identity]) (VList []) = Ok (VList [])
  /\ visit0 (Node "projection" None [identity]) (VList [VInt 1])
     = Raise IndexError
  /\ visit0 (Node "filter_projection" None [identity; identity]) (VList [])
     = Raise IndexError.
Proof.
  split; [reflexivity|].
  destruct (projection_children_read_on_use example_order no_functions
              None identity (VList [])) as (H1 & _ & H3).
  destruct (projection_children_read_on_use example_order no_functions
              None identity (VList [VInt 1])) as (_ & H2 & _).
  split; [exact (H1 eq_refl)|].
  split; [exact (H2 (VInt 1) [] eq_refl)|].
  apply (H3 [] [identity] eq_refl). cbn. lia.
Defined.

Lemma multi_select_list_length_witness :
  visit0 (Node "multi_select_list" None [field "a"; field "z"]) doc_ab
  = Ok (VList [VInt 1; VNone])
  /\ length [VInt 1; VNone] = length [field "a"; field "z"].
Proof.
  split; [reflexivity|].
  exact (multi_select_list_length example_order no_functions None
           [field "a"; field "z"] doc_ab [VInt 1; VNone] eq_refl).
Defined.

Lemma chaining_of_chainings_witness :
  (In "pipe" chaining_types /\ In "sub_expression" chaining_types
   /\ In "index_expression" chaining_types)
  /\ visit0 (Node "pipe" None
               [Node "sub_expression" None [field "a"; field "b"];
                Node "index_expression" None
                  [field "c"; Node "index" (Some (VInt 0)) []]])
       (VDict [(VStr "a", VDict [(VStr "b", VDict [(VStr "c",
                 VList [VInt 5])])])])
     = visit0 (Node "pipe" None
                 [field "a"; field "b"; field "c";
                  Node "index" (Some (VInt 0)) []])
         (VDict [(VStr "a", VDict [(VStr "b", VDict [(VStr "c",
                   VList [VInt 5])])])]).
Proof.
  assert (H1 : In "pipe" chaining_types) by (simpl; tauto).
  assert (H2 : In "sub_expression" chaining_types) by (simpl; tauto).
  assert (H3 : In "index_expression" chaining_types) by (simpl; tauto).
  split; [repeat split; assumption|].
  exact (chaining_of_chainings example_order no_functions "pipe"
           "sub_expression" "index_expression" None None None
           [field "a"; field "b"]
           [field "c"; Node "index" (Some (VInt 0)) []] _ H1 H2 H3).
Defined.

Lemma chaining_stops_at_error_witness :
  (In "sub_expression" chaining_types
   /\ visit0 (Node "sub_expression" None [field "a"]) doc_ab = Ok (VInt 1)
   /\ visit0 unknown_node (VInt 1)
      = Raise (NotImplementedError "default_visit"))
  /\ visit0 (Node "sub_expression" None
               [field "a"; unknown_node; field "b"]) doc_ab
     = Raise (NotImplementedError "default_visit").
Proof.
  assert (H : In "sub_expression" chaining_types) by (simpl; tauto).
  split; [repeat split; exact H|].
  exact (chaining_stops_at_error example_order no_functions "sub_expression"
           None [field "a"] [field "b"] unknown_node doc_ab (VInt 1) _
           H eq_refl eq_refl).
Defined.

Lemma chaining_skips_identity_witness :
  (In "pipe" chaining_types /\ In "current" ["identity"; "current"])
  /\ visit0 (Node "pipe" None [field "a"; Node "current" None []; unknown_node])
       doc_ab
     = visit0 (Node "pipe" None [field "a"; unknown_node]) doc_ab.
Proof.
  assert (H1 : In "pipe" chaining_types) by (simpl; tauto).
  assert (H2 : In "current" ["identity"; "current"]) by (simpl; tauto).
  split; [split; assumption|].
  exact (chaining_skips_identity example_order no_functions "pipe" "current"
           None None [field "a"] [unknown_node] [] doc_ab H1 H2).
Defined.

Lemma comparator_unknown_name_witness :
  ~ In "lessthan" comparator_names
  /\ visit0 (Node "comparator" (Some (VStr "lessthan")) [unknown_node]) doc_ab
     = Raise KeyError.
Proof.
  assert (H : ~ In "lessthan" comparator_names).
  { simpl. intros H.
    repeat (destruct H as [H|H]; [discriminate H|]). exact H. }
  split; [exact H|].
  destruct (comparator_unknown_name example_order no_functions
              [unknown_node] doc_ab) as [Hname _].
  exact (Hname "lessthan" H).
Defined.

Lemma comparators_on_integers_witness :
  (visit0 (field "a") doc_ab = Ok (VInt 1)
   /\ visit0 (field "b") doc_ab = Ok (VInt 2))
  /\ visit0 (Node "comparator" (Some (VStr "lt")) [field "a"; field "b"])
       doc_ab
     = Ok (VBool true)
  /\ visit0 (Node "comparator" (Some (VStr "le")) [field "a"; field "b"])
       doc_ab
     = Ok (VBool true)
  /\ visit0 (Node "comparator" (Some (VStr "gte")) [field "a"; field "b"])
       doc_ab
     = Ok (VBool false).
Proof.
  split; [split; reflexivity|].
  destruct (comparators_on_integers example_order no_functions
              (field "a") (field "b") [] doc_ab 1 2 eq_refl eq_refl)
    as (Hlt & _ & Hle & _ & Hgte & _).
  split; [exact Hlt|]. split; [exact Hle | exact Hgte].
Defined.

Lemma function_expression_calls_library_witness :
  (forall c, In c [field "a"; Node "expref" None [unknown_node]] ->
     TreeInterpreter.visit example_order (fun _ args => Ok (VList args))
       c doc_ab
     = Ok (match c with
           | Node "expref" _ (c0 :: _) => VExpression c0
           | _ => VInt 1
           end))
  /\ TreeInterpreter.visit example_order (fun _ args => Ok (VList args))
       (Node "function_expression" (Some (VStr "sort_by"))
          [field "a"; Node "expref" None [unknown_node]]) doc_ab
     = Ok (VList [VInt 1; VExpression unknown_node]).
Proof.
  set (R := fun c : node => match c with
                            | Node "expref" _ (c0 :: _) => VExpression c0
                            | _ => VInt 1
                            end).
  assert (H : forall c, In c [field "a"; Node "expref" None [unknown_node]] ->
                TreeInterpreter.visit example_order
                  (fun _ args => Ok (VList args)) c doc_ab = Ok (R c))
    by (intros c [<-|[<-|[]]]; reflexivity).
  split; [exact H|].
  exact (function_expression_calls_library example_order
           (fun _ args => Ok (VList args)) (VStr "sort_by")
           [field "a"; Node "expref" None [unknown_node]] doc_ab R H).
Defined.

Lemma function_expression_argument_error_witness :
  ((forall c, In c [field "a"] -> visit0 c doc_ab = Ok (VInt 1))
   /\ visit0 unknown_node doc_ab
      = Raise (NotImplementedError "default_visit"))
  /\ visit0 (Node "function_expression" None
               [field "a"; unknown_node; field "b"]) doc_ab
     = Raise (NotImplementedError "default_visit").
Proof.
  assert (H : forall c, In c [field "a"] -> visit0 c doc_ab = Ok (VInt 1))
    by (intros c [<-|[]]; reflexivity).
  split; [split; [exact H | reflexivity]|].
  exact (function_expression_argument_error example_order no_functions None
           [field "a"] [field "b"] unknown_node doc_ab (fun _ => VInt 1) _
           H eq_refl).
Defined.

Lemma index_witness :
  visit0 (Node "index" (Some (VInt 2)) []) (VList [VInt 10; VInt 20; VInt 30])
  = Ok (VInt 30)
  /\ visit0 (Node "index" (Some (VInt (-3))) [])
       (VList [VInt 10; VInt 20; VInt 30])
     = Ok (VInt 10)
  /\ visit0 (Node "index" (Some (VInt (-4))) [])
       (VList [VInt 10; VInt 20; VInt 30])
     = Ok VNone.
Proof.
  destruct (index_in_and_out_of_range example_order no_functions []
              [VInt 10; VInt 20; VInt 30] 2) as (H1 & _ & _).
  destruct (index_in_and_out_of_range example_order no_functions []
              [VInt 10; VInt 20; VInt 30] (-3)) as (_ & H2 & _).
  destruct (index_in_and_out_of_range example_order no_functions []
              [VInt 10; VInt 20; VInt 30] (-4)) as (_ & _ & H3).
  split; [apply H1; cbn; lia|].
  split; [apply H2; cbn; lia | apply H3; cbn; lia].
Defined.

Lemma field_of_multi_select_dict_witness :
  (is_none doc_ab = false
   /\ forall kc, In kc [("x", field "a"); ("y", field "a"); ("x", field "b")] ->
        visit0 (snd kc) doc_ab
        = Ok (match visit0 (snd kc) doc_ab with
              | Ok x => x
              | Raise _ => VNone
              end))
  /\ visit0 (Node "sub_expression" None
               [Node "multi_select_dict" None
                  (List.map key_val_pair
                     [("x", field "a"); ("y", field "a"); ("x", field "b")]);
                field "x"]) doc_ab
     = Ok (VInt 2).
Proof.
  set (R := fun c => match visit0 c doc_ab with
                     | Ok x => x
                     | Raise _ => VNone
                     end).
  assert (H : forall kc,
             In kc [("x", field "a"); ("y", field "a"); ("x", field "b")] ->
             visit0 (snd kc) doc_ab = Ok (R (snd kc)))
    by (intros kc [<-|[<-|[<-|[]]]]; reflexivity).
  split; [split; [reflexivity | exact H]|].
  exact (field_of_multi_select_dict example_order no_functions None None
           [("x", field "a"); ("y", field "a"); ("x", field "b")] "x"
           doc_ab R eq_refl H).
Defined.

Lemma cached_methods_witness :
  fst (cached_methods attributes m_default_visit ∅
         ["field"; "bogus"; "field"])
  = [m_field; m_default_visit; m_field].
Proof.
  exact (proj1 (cached_methods_are_getattr attributes m_default_visit ∅
                  ["field"; "bogus"; "field"]
                  (cache_ok_empty attributes m_default_visit))).
Defined.
